(** * The one-pager record store (app/services/database_service.py)

    A shallow embedding of [OnePagerRecord] and [DatabaseService], and the
    properties of the data-access contract that the specification states.

    Conventions of the embedding.
    - Python values that travel through dicts and through the table client
      are JSON values ([json]); a Python [dict] with string keys is a
      [gmap string json]; [None] is [JNull].  JSON numbers are integers
      (floating point values are not modelled).
    - [OnePagerRecord_init d], the constructor called on the keyword
      arguments [d], is pydantic validation against the field types
      declared in the class, in pydantic's default (lax) mode: a missing
      required field or a value the field type does not accept raises;
      unknown keys are ignored.  An [int] field also accepts a [bool] and a
      numeric string, a [bool] field also accepts 0, 1 and the words for
      true and false; [str], [Dict] and [List] fields accept only a value
      of their own JSON type.
    - A method body runs in the monad [M]: it reads the clock, talks to the
      table client and may raise.  [try_except] is [try: .. except Exception].
    - The two update methods mutate the dict they are given; they return the
      final contents of that dict next to their result.
    - [logger] calls have no effect on results or on the store and are left
      out. *)

From Stdlib Require Import ZArith.
From stdpp Require Import base strings gmap list option pretty.
Import (notations) Stdlib.Strings.Ascii.

Set Warnings "-register-all".
Local Open Scope Z_scope.
Local Open Scope string_scope.

(** ** Python values *)

Inductive json : Type :=
  | JNull
  | JBool (b : bool)
  | JInt (n : Z)
  | JStr (s : string)
  | JList (l : list json)
  | JObj (m : gmap string json).

(** [bool(v)]: the truth value Python's [if], [or] and [not] test. *)
Definition py_truthy (v : json) : bool :=
  match v with
  | JNull => false
  | JBool b => b
  | JInt n => negb (n =? 0)%Z
  | JStr s => negb (String.eqb s "")
  | JList l => match l with [] => false | _ => true end
  | JObj m => negb (bool_decide (m = ∅))
  end.

(** [a or b] *)
Definition py_or (a b : json) : json := if py_truthy a then a else b.

(** [isinstance(v, dict)] *)
Definition isinstance_dict (v : json) : bool :=
  match v with JObj _ => true | _ => false end.

(** [d.get(k)] *)
Definition dict_get (d : gmap string json) (k : string) : json :=
  default JNull (d !! k).

(** [d.pop(k, None)]: the value and the dict without the key. *)
Definition dict_pop (d : gmap string json) (k : string) : json * gmap string json :=
  (default JNull (d !! k), delete k d).

(** [v.get(k)] where the caller has checked that [v] is a dict. *)
Definition obj_get (v : json) (k : string) : json :=
  match v with JObj m => dict_get m k | _ => JNull end.

(** ** Exceptions *)

Inductive Exception : Type :=
  | Raised (cls : string) (msg : string).

Definition ValueError (msg : string) : Exception := Raised "ValueError" msg.
Definition ValidationError (loc : string) : Exception := Raised "ValidationError" loc.

Definition str_exn (e : Exception) : string :=
  match e with Raised _ msg => msg end.

(** ** Field types of the pydantic model *)

Class Field (A : Type) := {
  dump : A → json;
  validate : json → option A
}.

#[export] Instance Field_str : Field string := {|
  dump s := JStr s;
  validate v := match v with JStr s => Some s | _ => None end |}.

(** The string conversions of lax mode.  For an [int]: whitespace around the
    text is dropped, and what is left is read as a decimal literal, one
    optional sign and at least one digit, that a point and zeros only may
    follow; a text of more than 4300 characters is refused. *)
Fixpoint drop_spaces (s : string) : string :=
  match s with
  | String c s' => if Ascii.is_space c then drop_spaces s' else s
  | EmptyString => s
  end.

Definition str_trim (s : string) : string :=
  String.rev (drop_spaces (String.rev (drop_spaces s))).

Fixpoint digits_value (acc : Z) (s : string) : option Z :=
  match s with
  | EmptyString => Some acc
  | String c s' =>
      match Ascii.is_nat c with
      | Some d => digits_value (10 * acc + Z.of_nat d) s'
      | None => None
      end
  end.

Definition parse_int (s : string) : option Z :=
  match s with
  | EmptyString => None
  | String c EmptyString => digits_value 0 s
  | String c s' =>
      if Ascii.eqb c "-"%char then Z.opp <$> digits_value 0 s'
      else if Ascii.eqb c "+"%char then digits_value 0 s'
      else digits_value 0 s
  end.

Fixpoint all_zeros (s : string) : bool :=
  match s with
  | EmptyString => true
  | String c s' => Ascii.eqb c "0"%char && all_zeros s'
  end.

Fixpoint strip_decimal_zeros (s : string) : option string :=
  match s with
  | EmptyString => None
  | String c s' =>
      if Ascii.eqb c "."%char then (if all_zeros s' then Some EmptyString else None)
      else String c <$> strip_decimal_zeros s'
  end.

Definition str_as_int (s : string) : option Z :=
  let s := str_trim s in
  if (4300 <? Z.of_nat (String.length s))%Z then None
  else match parse_int s with
       | Some n => Some n
       | None => match strip_decimal_zeros s with
                 | Some s' => parse_int s'
                 | None => None
                 end
       end.

(** For a [bool]: one of twelve words, in any letter case. *)
Definition ascii_lower (c : Ascii.ascii) : Ascii.ascii :=
  let n := Ascii.N_of_ascii c in
  if (65 <=? n)%N && (n <=? 90)%N then Ascii.ascii_of_N (n + 32) else c.

Fixpoint str_lower (s : string) : string :=
  match s with
  | EmptyString => EmptyString
  | String c s' => String (ascii_lower c) (str_lower s')
  end.

Definition str_as_bool (s : string) : option bool :=
  let s := str_lower s in
  if bool_decide (s ∈ ["0"; "f"; "n"; "no"; "off"; "false"]) then Some false
  else if bool_decide (s ∈ ["1"; "t"; "y"; "on"; "yes"; "true"]) then Some true
  else None.

(** [int]: an int, a bool as 0 or 1, or a numeric string. *)
#[export] Instance Field_int : Field Z := {|
  dump n := JInt n;
  validate v := match v with
                | JInt n => Some n
                | JBool b => Some (if b then 1 else 0)%Z
                | JStr s => str_as_int s
                | _ => None
                end |}.

(** [bool]: a bool, the int 0 or 1, or one of the words. *)
#[export] Instance Field_bool : Field bool := {|
  dump b := JBool b;
  validate v := match v with
                | JBool b => Some b
                | JInt n => if (n =? 0)%Z then Some false
                            else if (n =? 1)%Z then Some true else None
                | JStr s => str_as_bool s
                | _ => None
                end |}.

(** [Dict[str, Any]] *)
#[export] Instance Field_dict : Field (gmap string json) := {|
  dump m := JObj m;
  validate v := match v with JObj m => Some m | _ => None end |}.

(** [List[T]] *)
#[export] Instance Field_list `{Field A} : Field (list A) := {|
  dump l := JList (dump <$> l);
  validate v := match v with JList l => mapM validate l | _ => None end |}.

(** [Optional[T]] *)
#[export] Instance Field_optional `{Field A} : Field (option A) := {|
  dump o := match o with Some x => dump x | None => JNull end;
  validate v := match v with JNull => Some None | _ => Some <$> validate v end |}.

(** A field without a default: the key must be present. *)
Definition required `{Field A} (d : gmap string json) (k : string) : Exception + A :=
  match d !! k with
  | None => inl (ValidationError k)
  | Some v => match validate v with
              | Some x => inr x
              | None => inl (ValidationError k)
              end
  end.

(** A field with a default, used when the key is absent. *)
Definition defaulted `{Field A} (d : gmap string json) (k : string) (dflt : A)
    : Exception + A :=
  match d !! k with
  | None => inr dflt
  | Some v => match validate v with
              | Some x => inr x
              | None => inl (ValidationError k)
              end
  end.

(** ** OnePagerRecord *)

Record OnePagerRecord : Type := {
  id : option Z;
  request_id : string;
  session_id : option string;
  company_name : string;
  website_url : string;
  status : string;
  generated_at : string;
  duration_ms : Z;
  folder_title : string;
  base_path : string;
  container : string;
  pptx_filename : string;
  pptx_blob_url : option string;
  pptx_blob_path : option string;
  metadata_blob_url : option string;
  excel_provided : bool;
  excel_filename : option string;
  excel_size : option Z;
  excel_blob_url : option string;
  excel_blob_path : option string;
  excel_blob_info : option (gmap string json);
  sections_status : option (gmap string json);
  sections_response : option (gmap string json);
  section_sources : option (gmap string json);
  product_images : option (list string);
  products : option (list (gmap string json));
  company_logo : option string;
  azure_upload_ok : bool;
  azure_upload_error : option string;
  warnings : option (list string);
  error_type : option string;
  error_message : option string;
  created_at : option string;
  updated_at : option string
}.

(** Sequencing of validators: the first failure is the error raised. *)
Definition vbind {A B} (x : Exception + A) (f : A → Exception + B) : Exception + B :=
  match x with inl e => inl e | inr a => f a end.

Notation "x ←? c ; k" := (vbind c (λ x, k))
  (at level 20, c at level 100, k at level 200, right associativity,
   format "x  ←?  c ;  '/' k").

(** The constructor of the model, called with the dict [d] as its keyword
    arguments. *)
Definition OnePagerRecord_init (d : gmap string json) : Exception + OnePagerRecord :=
  v_id ←? defaulted d "id" None;
  v_request_id ←? required d "request_id";
  v_session_id ←? defaulted d "session_id" None;
  v_company_name ←? required d "company_name";
  v_website_url ←? required d "website_url";
  v_status ←? required d "status";
  v_generated_at ←? required d "generated_at";
  v_duration_ms ←? required d "duration_ms";
  v_folder_title ←? required d "folder_title";
  v_base_path ←? required d "base_path";
  v_container ←? required d "container";
  v_pptx_filename ←? required d "pptx_filename";
  v_pptx_blob_url ←? defaulted d "pptx_blob_url" None;
  v_pptx_blob_path ←? defaulted d "pptx_blob_path" None;
  v_metadata_blob_url ←? defaulted d "metadata_blob_url" None;
  v_excel_provided ←? defaulted d "excel_provided" false;
  v_excel_filename ←? defaulted d "excel_filename" None;
  v_excel_size ←? defaulted d "excel_size" None;
  v_excel_blob_url ←? defaulted d "excel_blob_url" None;
  v_excel_blob_path ←? defaulted d "excel_blob_path" None;
  v_excel_blob_info ←? defaulted d "excel_blob_info" None;
  v_sections_status ←? defaulted d "sections_status" None;
  v_sections_response ←? defaulted d "sections_response" None;
  v_section_sources ←? defaulted d "section_sources" None;
  v_product_images ←? defaulted d "product_images" None;
  v_products ←? defaulted d "products" None;
  v_company_logo ←? defaulted d "company_logo" None;
  v_azure_upload_ok ←? defaulted d "azure_upload_ok" false;
  v_azure_upload_error ←? defaulted d "azure_upload_error" None;
  v_warnings ←? defaulted d "warnings" None;
  v_error_type ←? defaulted d "error_type" None;
  v_error_message ←? defaulted d "error_message" None;
  v_created_at ←? defaulted d "created_at" None;
  v_updated_at ←? defaulted d "updated_at" None;
  inr {| id := v_id; request_id := v_request_id; session_id := v_session_id;
         company_name := v_company_name; website_url := v_website_url;
         status := v_status; generated_at := v_generated_at;
         duration_ms := v_duration_ms; folder_title := v_folder_title;
         base_path := v_base_path; container := v_container;
         pptx_filename := v_pptx_filename; pptx_blob_url := v_pptx_blob_url;
         pptx_blob_path := v_pptx_blob_path;
         metadata_blob_url := v_metadata_blob_url;
         excel_provided := v_excel_provided; excel_filename := v_excel_filename;
         excel_size := v_excel_size; excel_blob_url := v_excel_blob_url;
         excel_blob_path := v_excel_blob_path;
         excel_blob_info := v_excel_blob_info;
         sections_status := v_sections_status;
         sections_response := v_sections_response;
         section_sources := v_section_sources;
         product_images := v_product_images; products := v_products;
         company_logo := v_company_logo; azure_upload_ok := v_azure_upload_ok;
         azure_upload_error := v_azure_upload_error; warnings := v_warnings;
         error_type := v_error_type; error_message := v_error_message;
         created_at := v_created_at; updated_at := v_updated_at |}.

(** [r.model_dump(exclude={'id', 'created_at', 'updated_at'})] *)
Definition model_dump_excl (r : OnePagerRecord) : gmap string json :=
  list_to_map [
    ("request_id", dump (request_id r));
    ("session_id", dump (session_id r));
    ("company_name", dump (company_name r));
    ("website_url", dump (website_url r));
    ("status", dump (status r));
    ("generated_at", dump (generated_at r));
    ("duration_ms", dump (duration_ms r));
    ("folder_title", dump (folder_title r));
    ("base_path", dump (base_path r));
    ("container", dump (container r));
    ("pptx_filename", dump (pptx_filename r));
    ("pptx_blob_url", dump (pptx_blob_url r));
    ("pptx_blob_path", dump (pptx_blob_path r));
    ("metadata_blob_url", dump (metadata_blob_url r));
    ("excel_provided", dump (excel_provided r));
    ("excel_filename", dump (excel_filename r));
    ("excel_size", dump (excel_size r));
    ("excel_blob_url", dump (excel_blob_url r));
    ("excel_blob_path", dump (excel_blob_path r));
    ("excel_blob_info", dump (excel_blob_info r));
    ("sections_status", dump (sections_status r));
    ("sections_response", dump (sections_response r));
    ("section_sources", dump (section_sources r));
    ("product_images", dump (product_images r));
    ("products", dump (products r));
    ("company_logo", dump (company_logo r));
    ("azure_upload_ok", dump (azure_upload_ok r));
    ("azure_upload_error", dump (azure_upload_error r));
    ("warnings", dump (warnings r));
    ("error_type", dump (error_type r));
    ("error_message", dump (error_message r))
  ].

(** ** The excel pair: write-side packing and read-side unpacking *)

(** [DatabaseService._prepare_record_for_db] (it does not use [self]). *)
Definition _prepare_record_for_db (record_data : OnePagerRecord) : gmap string json :=
  let data := model_dump_excl record_data in
  let '(excel_blob_url, data) := dict_pop data "excel_blob_url" in
  let '(excel_blob_path, data) := dict_pop data "excel_blob_path" in
  if py_truthy (py_or excel_blob_url excel_blob_path) then
    <["excel_blob_info" :=
        JObj {[ "excel_blob_url" := excel_blob_url;
                "excel_blob_path" := excel_blob_path ]}]> data
  else
    <["excel_blob_info" := JNull]> data.

(** The first statement of [_extract_record_from_db]: the [if]/[else] that
    assigns the two top-level keys of [db_record].  The subscript
    [db_record['excel_blob_info']] is only evaluated after [.get] found a
    truthy value under that key, so it reads the same value. *)
Definition _extract_excel_fields (db_record : gmap string json) : gmap string json :=
  if py_truthy (dict_get db_record "excel_blob_info")
     && isinstance_dict (dict_get db_record "excel_blob_info") then
    let db_record :=
      <["excel_blob_url" :=
          obj_get (dict_get db_record "excel_blob_info") "excel_blob_url"]> db_record in
    <["excel_blob_path" :=
        obj_get (dict_get db_record "excel_blob_info") "excel_blob_path"]> db_record
  else
    let db_record := <["excel_blob_url" := JNull]> db_record in
    <["excel_blob_path" := JNull]> db_record.

(** [DatabaseService._extract_record_from_db]: the assignment above, then the
    model constructor on the resulting dict. *)
Definition _extract_record_from_db (db_record : gmap string json)
    : Exception + OnePagerRecord :=
  OnePagerRecord_init (_extract_excel_fields db_record).

(** ** The table client *)

Inductive verb : Type :=
  | Select (columns : string)
  | Insert (data : gmap string json)
  | Update (data : gmap string json)
  | Delete.

Record query : Type := Query {
  q_table : string;
  q_verb : verb;
  q_filters : list (string * json);
  q_order : option (string * bool);
  q_limit : option Z
}.

(** The request builder: [client.table(name).select(..).eq(..).order(..)]. *)
Definition table (name : string) (v : verb) : query := Query name v [] None None.

Definition q_eq (column : string) (value : json) (q : query) : query :=
  Query (q_table q) (q_verb q) (q_filters q ++ [(column, value)])
        (q_order q) (q_limit q).

Definition q_order_by (column : string) (desc : bool) (q : query) : query :=
  Query (q_table q) (q_verb q) (q_filters q) (Some (column, desc)) (q_limit q).

Definition q_limit_to (n : Z) (q : query) : query :=
  Query (q_table q) (q_verb q) (q_filters q) (q_order q) (Some n).

Notation "q |> f" := (f q) (at level 45, left associativity, only parsing).

(** What the service needs from the hosted backend: building a client handle
    [C] from the endpoint and the credential, and executing a request against
    the remote state [St].  [execute] answers with [result.data] or raises. *)
Class TableClient (C St : Type) := {
  create_client : string → string → Exception + C;
  execute : C → query → St → (Exception + list (gmap string json)) * St
}.

(** ** Computations that read the clock, reach the store and may raise *)

Definition M (Σ A : Type) : Type := Σ → (Exception + A) * Σ.

#[export] Instance M_ret {Σ} : MRet (M Σ) := λ A x σ, (inr x, σ).

#[export] Instance M_bind {Σ} : MBind (M Σ) := λ A B f m σ,
  match m σ with
  | (inl e, σ') => (inl e, σ')
  | (inr a, σ') => f a σ'
  end.

(** [raise e] when [x] is a failed validation, its value otherwise. *)
Definition lift_exn {Σ A} (x : Exception + A) : M Σ A := λ σ, (x, σ).

(** [try: body except Exception as e: handler(e)].  What the body did to the
    state before it raised stays done. *)
Definition try_except {Σ A} (body : M Σ A) (handler : Exception → M Σ A) : M Σ A :=
  λ σ, match body σ with
       | (inl e, σ') => handler e σ'
       | (inr a, σ') => (inr a, σ')
       end.

(** The world outside the process: the clock and the remote table. *)
Record world (St : Type) : Type := World {
  ticks : nat;
  remote : St
}.
Arguments World {St} _ _.
Arguments ticks {St} _.
Arguments remote {St} _.

(** The rendering of a clock reading, [datetime.isoformat]. *)
Class Clock := isoformat : nat → string.

(** [datetime.utcnow().isoformat()]: every reading advances the clock. *)
Definition utcnow_isoformat {clock : Clock} {St} : M (world St) string :=
  λ w, (inr (isoformat (ticks w)), World (S (ticks w)) (remote w)).

(** [query.execute()] followed by [.data]. *)
Definition run {C St} {tc : TableClient C St} (client : C) (q : query)
    : M (world St) (list (gmap string json)) :=
  λ w, let '(r, s) := execute client q (remote w) in (r, World (ticks w) s).

(** The [update_data] argument of the two update methods is a dict owned by
    the caller that the method mutates: it is part of the state. *)
Definition in_world {D St A} (m : M (world St) A) : M (D * world St) A :=
  λ '(d, w), let '(r, w') := m w in (r, (d, w')).

Definition update_data_pop {W} (k : string) : M (gmap string json * W) json :=
  λ '(d, w), let '(v, d') := dict_pop d k in (inr v, (d', w)).

Definition update_data_set {W} (k : string) (v : json) : M (gmap string json * W) unit :=
  λ '(d, w), (inr tt, (<[k := v]> d, w)).

Definition update_data_read {W} : M (gmap string json * W) (gmap string json) :=
  λ '(d, w), (inr d, (d, w)).

(** [[f(x) for x in l]] where [f] may raise. *)
Fixpoint list_comprehension {A B} (f : A → Exception + B) (l : list A)
    : Exception + list B :=
  match l with
  | [] => inr []
  | x :: l' => y ←? f x; ys ←? list_comprehension f l'; inr (y :: ys)
  end.

(** ** DatabaseService *)

Record DatabaseService (C : Type) : Type := {
  supabase_url : option string;
  supabase_key : option string;
  client : C
}.
Arguments supabase_url {C} _.
Arguments supabase_key {C} _.
Arguments client {C} _.

Section Service.
Context {clock : Clock} {C St : Type} {tc : TableClient C St}.

(** [DatabaseService.__init__]; [environ] is the process environment that
    [os.getenv] reads. *)
Definition DatabaseService_init (environ : gmap string string)
    : Exception + DatabaseService C :=
  let supabase_url := environ !! "SUPABASE_URL" in
  let supabase_key := environ !! "SUPABASE_ANON_KEY" in
  if negb (py_truthy (dump supabase_url)) || negb (py_truthy (dump supabase_key)) then
    inl (ValueError "SUPABASE_URL and SUPABASE_ANON_KEY must be set")
  else
    match create_client (default "" supabase_url) (default "" supabase_key) with
    | inr client =>
        inr {| supabase_url := supabase_url;
               supabase_key := supabase_key;
               client := client |}
    | inl e =>
        inl (ValueError ("Failed to connect to Supabase: " +:+ str_exn e))
    end.

Definition create_one_pager_record (self : DatabaseService C)
    (record_data : OnePagerRecord) : M (world St) (option OnePagerRecord) :=
  try_except
    (let data := _prepare_record_for_db record_data in
     now ← utcnow_isoformat;
     let data := <["created_at" := JStr now]> data in
     let data := <["updated_at" := JStr now]> data in
     result ← run (client self) (table "one_pager_reports" (Insert data));
     match result with
     | db_record :: _ =>
         created_record ← lift_exn (_extract_record_from_db db_record);
         mret (Some created_record)
     | [] => mret None
     end)
    (λ e, mret None).

Definition update_one_pager_record (self : DatabaseService C) (record_id : Z)
    : M (gmap string json * world St) (option OnePagerRecord) :=
  try_except
    (excel_blob_url ← update_data_pop "excel_blob_url";
     excel_blob_path ← update_data_pop "excel_blob_path";
     (if py_truthy (py_or excel_blob_url excel_blob_path) then
        update_data_set "excel_blob_info"
          (JObj {[ "excel_blob_url" := excel_blob_url;
                   "excel_blob_path" := excel_blob_path ]})
      else
        update_data_set "excel_blob_info" JNull);;
     now ← in_world utcnow_isoformat;
     update_data_set "updated_at" (JStr now);;
     update_data ← update_data_read;
     result ← in_world (run (client self)
                 (table "one_pager_reports" (Update update_data)
                  |> q_eq "id" (JInt record_id)));
     match result with
     | db_record :: _ =>
         updated_record ← lift_exn (_extract_record_from_db db_record);
         mret (Some updated_record)
     | [] => mret None
     end)
    (λ e, mret None).

Definition get_one_pager_record (self : DatabaseService C) (record_id : Z)
    : M (world St) (option OnePagerRecord) :=
  try_except
    (result ← run (client self)
                 (table "one_pager_reports" (Select "*")
                  |> q_eq "id" (JInt record_id));
     match result with
     | db_record :: _ =>
         record ← lift_exn (_extract_record_from_db db_record);
         mret (Some record)
     | [] => mret None
     end)
    (λ e, mret None).

Definition get_one_pager_records_by_company (self : DatabaseService C)
    (company_name : string) : M (world St) (list OnePagerRecord) :=
  try_except
    (result ← run (client self)
                 (table "one_pager_reports" (Select "*")
                  |> q_eq "company_name" (JStr company_name)
                  |> q_order_by "created_at" true);
     records ← lift_exn (list_comprehension _extract_record_from_db result);
     mret records)
    (λ e, mret []).

Definition get_recent_one_pager_records (self : DatabaseService C)
    (limit : Z) : M (world St) (list OnePagerRecord) :=
  try_except
    (result ← run (client self)
                 (table "one_pager_reports" (Select "*")
                  |> q_order_by "created_at" true
                  |> q_limit_to limit);
     records ← lift_exn (list_comprehension _extract_record_from_db result);
     mret records)
    (λ e, mret []).

Definition get_one_pager_record_by_request_id (self : DatabaseService C)
    (request_id : string) : M (world St) (option OnePagerRecord) :=
  try_except
    (result ← run (client self)
                 (table "one_pager_reports" (Select "*")
                  |> q_eq "request_id" (JStr request_id));
     match result with
     | db_record :: _ =>
         record ← lift_exn (_extract_record_from_db db_record);
         mret (Some record)
     | [] => mret None
     end)
    (λ e, mret None).

Definition get_in_progress_records_by_company (self : DatabaseService C)
    (company_name : string) : M (world St) (list OnePagerRecord) :=
  try_except
    (result ← run (client self)
                 (table "one_pager_reports" (Select "*")
                  |> q_eq "company_name" (JStr company_name)
                  |> q_eq "status" (JStr "in-progress")
                  |> q_order_by "created_at" true);
     records ← lift_exn (list_comprehension _extract_record_from_db result);
     mret records)
    (λ e, mret []).

Definition get_recent_request_by_company (self : DatabaseService C)
    (company_name : string) : M (world St) (option OnePagerRecord) :=
  try_except
    (result ← run (client self)
                 (table "one_pager_reports" (Select "*")
                  |> q_eq "company_name" (JStr company_name)
                  |> q_order_by "created_at" true
                  |> q_limit_to 1);
     match result with
     | db_record :: _ =>
         record ← lift_exn (_extract_record_from_db db_record);
         mret (Some record)
     | [] => mret None
     end)
    (λ e, mret None).

Definition update_one_pager_record_atomic (self : DatabaseService C)
    (record_id : Z) (expected_status : option string)
    : M (gmap string json * world St) (option OnePagerRecord) :=
  try_except
    (excel_blob_url ← update_data_pop "excel_blob_url";
     excel_blob_path ← update_data_pop "excel_blob_path";
     (if py_truthy (py_or excel_blob_url excel_blob_path) then
        update_data_set "excel_blob_info"
          (JObj {[ "excel_blob_url" := excel_blob_url;
                   "excel_blob_path" := excel_blob_path ]})
      else
        update_data_set "excel_blob_info" JNull);;
     now ← in_world utcnow_isoformat;
     update_data_set "updated_at" (JStr now);;
     update_data ← update_data_read;
     let query := table "one_pager_reports" (Update update_data)
                  |> q_eq "id" (JInt record_id) in
     let query := match expected_status with
                  | Some expected => query |> q_eq "status" (JStr expected)
                  | None => query
                  end in
     result ← in_world (run (client self) query);
     match result with
     | db_record :: _ =>
         updated_record ← lift_exn (_extract_record_from_db db_record);
         mret (Some updated_record)
     | [] => mret None
     end)
    (λ e, mret None).

Definition delete_one_pager_record (self : DatabaseService C) (record_id : Z)
    : M (world St) bool :=
  try_except
    (result ← run (client self)
                 (table "one_pager_reports" Delete
                  |> q_eq "id" (JInt record_id));
     match result with
     | _ :: _ => mret true
     | [] => mret false
     end)
    (λ e, mret false).

End Service.

(** ** A reference table client: one table held in memory

    The hosted store is reached only through [TableClient].  [MemStore] is
    the reference instance the store-dependent properties are stated on: the
    table is a list of rows in insertion order, [insert] assigns the next id
    and answers with the stored row, [update] merges the payload into every
    row that passes all filters (in one step, as a single statement) and
    answers with the rows it changed, [select] and [delete] answer with the
    rows that pass the filters.  Any column may hold any JSON value. *)

Module MemStore.

Record table_state : Type := TableState {
  rows : list (gmap string json);
  next_id : Z
}.

(** Equality of a column with a filter value, on scalars. *)
Definition scalar_eqb (a b : json) : bool :=
  match a, b with
  | JInt x, JInt y => (x =? y)%Z
  | JStr x, JStr y => String.eqb x y
  | JBool x, JBool y => Bool.eqb x y
  | _, _ => false
  end.

Definition passes (filters : list (string * json)) (row : gmap string json) : bool :=
  forallb (λ '(column, value),
             match row !! column with
             | Some x => scalar_eqb x value
             | None => false
             end) filters.

(** Order of two column values; values that do not compare stay in place. *)
Definition column_leb (a b : option json) : bool :=
  match a, b with
  | Some (JStr x), Some (JStr y) => String.leb x y
  | Some (JInt x), Some (JInt y) => (x <=? y)%Z
  | _, _ => true
  end.

Fixpoint insert_sorted (leb : gmap string json → gmap string json → bool)
    (r : gmap string json) (l : list (gmap string json)) : list (gmap string json) :=
  match l with
  | [] => [r]
  | r' :: l' => if leb r r' then r :: l else r' :: insert_sorted leb r l'
  end.

Definition ordered (o : option (string * bool)) (l : list (gmap string json))
    : list (gmap string json) :=
  match o with
  | None => l
  | Some (column, desc) =>
      let leb r1 r2 :=
        if desc then column_leb (r2 !! column) (r1 !! column)
        else column_leb (r1 !! column) (r2 !! column) in
      foldr (insert_sorted leb) [] l
  end.

Definition limited (n : option Z) (l : list (gmap string json))
    : list (gmap string json) :=
  match n with
  | None => l
  | Some n => take (Z.to_nat n) l
  end.

Definition mem_create_client (url key : string) : Exception + (string * string) :=
  if String.eqb url "" then inl (Raised "SupabaseException" "supabase_url is required")
  else if String.eqb key "" then inl (Raised "SupabaseException" "supabase_key is required")
  else inr (url, key).

Definition mem_execute (c : string * string) (q : query) (s : table_state)
    : (Exception + list (gmap string json)) * table_state :=
  if negb (String.eqb (q_table q) "one_pager_reports") then
    (inl (Raised "APIError" "relation does not exist"), s)
  else
    match q_verb q with
    | Select _ =>
        (inr (limited (q_limit q)
                (ordered (q_order q) (filter (λ r, passes (q_filters q) r) (rows s)))),
         s)
    | Insert data =>
        let row := <["id" := JInt (next_id s)]> data in
        (inr [row], TableState (rows s ++ [row]) (next_id s + 1))
    | Update data =>
        (inr ((λ r, data ∪ r) <$> filter (λ r, passes (q_filters q) r) (rows s)),
         TableState ((λ r, if passes (q_filters q) r then data ∪ r else r) <$> rows s)
                    (next_id s))
    | Delete =>
        (inr (filter (λ r, passes (q_filters q) r) (rows s)),
         TableState (filter (λ r, negb (passes (q_filters q) r)) (rows s)) (next_id s))
    end.

#[export] Instance mem_client : TableClient (string * string) table_state := {|
  create_client := mem_create_client;
  execute := mem_execute
|}.

(** The primary key has not been handed out yet. *)
Definition id_unused (s : table_state) : Prop :=
  Forall (λ r, r !! "id" ≠ Some (JInt (next_id s))) (rows s).

End MemStore.

Import MemStore.

(** ** Reference values used in the statements *)

(** Every field of the model, in declaration order. *)
Definition field_names : list string := [
  "id"; "request_id"; "session_id"; "company_name"; "website_url"; "status";
  "generated_at"; "duration_ms"; "folder_title"; "base_path"; "container";
  "pptx_filename"; "pptx_blob_url"; "pptx_blob_path"; "metadata_blob_url";
  "excel_provided"; "excel_filename"; "excel_size"; "excel_blob_url";
  "excel_blob_path"; "excel_blob_info"; "sections_status"; "sections_response";
  "section_sources"; "product_images"; "products"; "company_logo";
  "azure_upload_ok"; "azure_upload_error"; "warnings"; "error_type";
  "error_message"; "created_at"; "updated_at" ].

(** [r.model_dump()], with no field excluded. *)
Definition model_dump (r : OnePagerRecord) : gmap string json :=
  <["id" := dump (id r)]>
    (<["created_at" := dump (created_at r)]>
       (<["updated_at" := dump (updated_at r)]> (model_dump_excl r))).

(** The packing rule: the value of the [excel_blob_info] column for a pair. *)
Definition excel_pack (excel_blob_url excel_blob_path : json) : json :=
  if py_truthy excel_blob_url || py_truthy excel_blob_path then
    JObj {[ "excel_blob_url" := excel_blob_url;
            "excel_blob_path" := excel_blob_path ]}
  else JNull.

(** [r] with the fields the caller does not own replaced. *)
Definition with_store_fields (r : OnePagerRecord) (i : option Z)
    (created updated : option string) (url path : option string)
    (info : option (gmap string json)) : OnePagerRecord :=
  {| id := i; request_id := request_id r; session_id := session_id r;
     company_name := company_name r; website_url := website_url r;
     status := status r; generated_at := generated_at r;
     duration_ms := duration_ms r; folder_title := folder_title r;
     base_path := base_path r; container := container r;
     pptx_filename := pptx_filename r; pptx_blob_url := pptx_blob_url r;
     pptx_blob_path := pptx_blob_path r;
     metadata_blob_url := metadata_blob_url r;
     excel_provided := excel_provided r; excel_filename := excel_filename r;
     excel_size := excel_size r; excel_blob_url := url;
     excel_blob_path := path; excel_blob_info := info;
     sections_status := sections_status r;
     sections_response := sections_response r;
     section_sources := section_sources r;
     product_images := product_images r; products := products r;
     company_logo := company_logo r; azure_upload_ok := azure_upload_ok r;
     azure_upload_error := azure_upload_error r; warnings := warnings r;
     error_type := error_type r; error_message := error_message r;
     created_at := created; updated_at := updated |}.

(** The record read back from the row that [create] inserts for [r]. *)
Definition persisted (r : OnePagerRecord) (i : Z) (now : string) : OnePagerRecord :=
  if py_truthy (dump (excel_blob_url r)) || py_truthy (dump (excel_blob_path r)) then
    with_store_fields r (Some i) (Some now) (Some now)
      (excel_blob_url r) (excel_blob_path r)
      (Some {[ "excel_blob_url" := dump (excel_blob_url r);
               "excel_blob_path" := dump (excel_blob_path r) ]})
  else
    with_store_fields r (Some i) (Some now) (Some now) None None None.

(** The row [create] sends to the store for [r] at time [now]. *)
Definition created_row (r : OnePagerRecord) (now : string) : gmap string json :=
  <["updated_at" := JStr now]>
    (<["created_at" := JStr now]> (_prepare_record_for_db r)).

(** The contents of [update_data] when an update method is done with it. *)
Definition update_payload (update_data : gmap string json) (now : string)
    : gmap string json :=
  <["updated_at" := JStr now]>
    (<["excel_blob_info" :=
         excel_pack (dict_get update_data "excel_blob_url")
                    (dict_get update_data "excel_blob_path")]>
       (delete "excel_blob_path" (delete "excel_blob_url" update_data))).

(** What a single-record method answers from [result.data]: the first row,
    read back; no row, or a row the model rejects, is "no result". *)
Definition first_record (result : list (gmap string json)) : option OnePagerRecord :=
  match result with
  | db_record :: _ =>
      match _extract_record_from_db db_record with
      | inr record => Some record
      | inl _ => None
      end
  | [] => None
  end.

(** The outcome of a single-record method whose request got the response
    [resp] from the client: an exception of the client is swallowed. *)
Definition answer_of {St Σ} (resp : (Exception + list (gmap string json)) * St)
    (k : St → Σ) : (Exception + option OnePagerRecord) * Σ :=
  match resp with
  | (inr result, s) => (inr (first_record result), k s)
  | (inl e, s) => (inr None, k s)
  end.

(** The record a method answered, if it answered one. *)
Definition answered {A} (o : Exception + option A) : option A :=
  match o with
  | inr (Some x) => Some x
  | _ => None
  end.

(** The request of [create_one_pager_record]. *)
Definition insert_query (row : gmap string json) : query :=
  Query "one_pager_reports" (Insert row) [] None None.

(** The request of [get_one_pager_record]. *)
Definition select_query (record_id : Z) : query :=
  Query "one_pager_reports" (Select "*") [("id", JInt record_id)] None None.

(** The row filter of the two update methods: the id, and the status when a
    guard is supplied. *)
Definition guard (record_id : Z) (expected_status : option string)
    : list (string * json) :=
  ("id", JInt record_id) ::
  match expected_status with
  | Some expected => [("status", JStr expected)]
  | None => []
  end.

(** The request of the two update methods. *)
Definition update_query (record_id : Z) (expected_status : option string)
    (payload : gmap string json) : query :=
  Query "one_pager_reports" (Update payload) (guard record_id expected_status)
        None None.

(** The requests of the read methods. *)
Definition company_query (company_name : string) : query :=
  Query "one_pager_reports" (Select "*") [("company_name", JStr company_name)]
        (Some ("created_at", true)) None.

Definition in_progress_query (company_name : string) : query :=
  Query "one_pager_reports" (Select "*")
        [("company_name", JStr company_name); ("status", JStr "in-progress")]
        (Some ("created_at", true)) None.

Definition recent_query (limit : Z) : query :=
  Query "one_pager_reports" (Select "*") [] (Some ("created_at", true)) (Some limit).

Definition request_id_query (request_id : string) : query :=
  Query "one_pager_reports" (Select "*") [("request_id", JStr request_id)]
        None None.

Definition recent_request_query (company_name : string) : query :=
  Query "one_pager_reports" (Select "*") [("company_name", JStr company_name)]
        (Some ("created_at", true)) (Some 1%Z).

(** The request of [delete_one_pager_record]. *)
Definition delete_query (record_id : Z) : query :=
  Query "one_pager_reports" Delete [("id", JInt record_id)] None None.

(** Two dicts that one field of the model reads alike: the same value under
    the key, or, for the excel pair, an explicit null against an absent key. *)
Definition reads_alike (d1 d2 : gmap string json) (k : string) : Prop :=
  d1 !! k = d2 !! k
  ∨ (k = "excel_blob_url" ∨ k = "excel_blob_path")
    ∧ d1 !! k = Some JNull ∧ d2 !! k = None.

(** ** Laws of a field type *)

(** Validation reads back what the model dumps. *)
Class FieldOk (A : Type) `{Field A} := {
  validate_dump : ∀ x : A, validate (dump x) = Some x
}.

(** No value of the type dumps to null. *)
Class FieldNonNull (A : Type) `{Field A} := {
  dump_non_null : ∀ x : A, dump x ≠ JNull
}.

(** ** What the statements say about raising *)

(** The computation ends with a value from every state. *)
Definition never_raises {Σ A} (m : M Σ A) : Prop :=
  ∀ σ, ∃ v σ', m σ = (inr v, σ').

(** An environment value that is unset, or set to the empty string. *)
Definition missing (v : option string) : Prop := v = None ∨ v = Some "".

(** The client raises [e] on the request [q] sent from the world [w], and
    leaves the remote state [s]. *)
Definition raises_on {C St} {tc : TableClient C St} (c : C) (q : query)
    (w : world St) (e : Exception) (s : St) : Prop :=
  execute c q (remote w) = (inl e, s).

(** A client whose every request fails. *)
Definition failing_client : TableClient unit unit := {|
  create_client _ _ := inr tt;
  execute _ _ s := (inl (Raised "ConnectionError" "timed out"), s)
|}.

(** The in-memory table behind a credential that may only read: [select] is
    answered as by [mem_client], every write is refused by the store. *)
Definition read_only_execute (c : string * string) (q : query) (s : table_state)
    : (Exception + list (gmap string json)) * table_state :=
  match q_verb q with
  | Select _ => mem_execute c q s
  | _ => (inl (Raised "APIError" "permission denied for table one_pager_reports"), s)
  end.

Definition read_only_client : TableClient (string * string) table_state := {|
  create_client := mem_create_client;
  execute := read_only_execute
|}.

(** ** Sample values for the concrete runs *)

Definition sample_clock : Clock := λ n, "2025-01-01T00:00:0" +:+ pretty n.

Definition sample_record : OnePagerRecord := {|
  id := None; request_id := "r1"; session_id := None; company_name := "Acme";
  website_url := "https://acme.example"; status := "in-progress";
  generated_at := "2025-01-01T00:00:00"; duration_ms := 0;
  folder_title := "acme"; base_path := "one-pagers/acme"; container := "dev";
  pptx_filename := "acme.pptx"; pptx_blob_url := None; pptx_blob_path := None;
  metadata_blob_url := None; excel_provided := true;
  excel_filename := Some "data.xlsx"; excel_size := Some 50000;
  excel_blob_url := Some "https://blob.example/data.xlsx";
  excel_blob_path := Some "one-pagers/acme/excel/data.xlsx";
  excel_blob_info := None; sections_status := None; sections_response := None;
  section_sources := None; product_images := Some ["https://img.example/1.jpg"];
  products := None; company_logo := None; azure_upload_ok := false;
  azure_upload_error := None; warnings := Some ["slow site"];
  error_type := None; error_message := None; created_at := None;
  updated_at := None |}.

Definition sample_service : DatabaseService (string * string) :=
  {| supabase_url := Some "https://db.example";
     supabase_key := Some "anon-key";
     client := ("https://db.example", "anon-key") |}.

Definition empty_world : world table_state :=
  World 0 (TableState [] 1).

(** The row that creating [sample_record] in the empty table stores. *)
Definition sample_row : gmap string json :=
  <["id" := JInt 1]> (created_row sample_record (sample_clock 0%nat)).

(** The world after [sample_record] was created in the empty table: one row,
    with id 1 and status in-progress. *)
Definition sample_world : world table_state :=
  (create_one_pager_record (clock := sample_clock) sample_service sample_record
     empty_world).2.

(** A row that holds the pair [u], [p] in its [excel_blob_info] column, and
    reads back as that pair. *)
Definition pair_kept (u p : json) (row : gmap string json) : Prop :=
  row !! "excel_blob_info"
    = Some (JObj {[ "excel_blob_url" := u; "excel_blob_path" := p ]})
  ∧ _extract_excel_fields row !! "excel_blob_url" = Some u
  ∧ _extract_excel_fields row !! "excel_blob_path" = Some p
  ∧ ∀ x, _extract_record_from_db row = inr x →
         dump (excel_blob_url x) = u ∧ dump (excel_blob_path x) = p.

(** A row whose [excel_blob_info] column is null, and reads back without a
    pair. *)
Definition pair_erased (row : gmap string json) : Prop :=
  row !! "excel_blob_info" = Some JNull
  ∧ _extract_excel_fields row !! "excel_blob_url" = Some JNull
  ∧ _extract_excel_fields row !! "excel_blob_path" = Some JNull
  ∧ ∀ x, _extract_record_from_db row = inr x →
         excel_blob_url x = None ∧ excel_blob_path x = None
         ∧ excel_blob_info x = None.

(** The packing rule on a stored row: the pair as supplied when either value
    is truthy, no pair otherwise. *)
Definition holds_pair (u p : json) (row : gmap string json) : Prop :=
  if py_truthy u || py_truthy p then pair_kept u p row else pair_erased row.

(** [sample_record] with an empty url next to a path. *)
Definition half_empty_record : OnePagerRecord :=
  with_store_fields sample_record None None None
    (Some "") (Some "one-pagers/acme/excel/data.xlsx") None.

(** [sample_record] with a url and no path. *)
Definition url_only_record : OnePagerRecord :=
  with_store_fields sample_record None None None
    (Some "https://blob.example/data.xlsx") None None.

(** [sample_row] as read from a table whose [excel_blob_info] column holds a
    JSON string. *)
Definition text_info_row : gmap string json :=
  <["excel_blob_info" := JStr "n/a"]> sample_row.

(** ** Values used by the further properties *)

Definition KeyError (k : string) : Exception := Raised "KeyError" k.

(** [d[k]]: the value under the key, or [KeyError]. *)
Definition dict_getitem (d : gmap string json) (k : string) : Exception + json :=
  match d !! k with
  | Some v => inr v
  | None => inl (KeyError k)
  end.

(** What a list method answers from [result.data]: every row read back, in
    order, or the empty list as soon as the model rejects one row. *)
Definition all_records (result : list (gmap string json)) : list OnePagerRecord :=
  match list_comprehension _extract_record_from_db result with
  | inr records => records
  | inl _ => []
  end.

(** The outcome of a list method whose request got the response [resp]. *)
Definition answer_all {St} (resp : (Exception + list (gmap string json)) * St)
    (k : St → world St) : (Exception + list OnePagerRecord) * world St :=
  match resp with
  | (inr result, s) => (inr (all_records result), k s)
  | (inl e, s) => (inr [], k s)
  end.

(** A table with the sample row and an older row of the same company whose
    [excel_blob_info] column holds a JSON string. *)
Definition mixed_world : world table_state :=
  World 1 (TableState
             [sample_row;
              <["created_at" := JStr "2024-06-30T00:00:00"]>
                (<["id" := JInt 2]> text_info_row)]
             3).

(** A table with two requests of the sample company, in insertion order:
    the sample row and a later row under the request id r2. *)
Definition later_row : gmap string json :=
  <["request_id" := JStr "r2"]>
    (<["id" := JInt 2]> (created_row sample_record (sample_clock 1%nat))).

Definition two_request_world : world table_state :=
  World 2 (TableState [sample_row; later_row] 3).

(** The list a method answered. *)
Definition listed {A} (o : Exception + list A) : list A :=
  match o with
  | inr l => l
  | inl _ => []
  end.

(** Every id in the table is below the next id the store hands out. *)
Definition ids_below (s : table_state) : Prop :=
  Forall (λ r : gmap string json,
            ∀ i, r !! "id" = Some (JInt i) → (i < next_id s)%Z) (rows s).

(** * Properties *)

(** ** Validation reads back what the model dumps *)

#[export] Instance FieldOk_str : FieldOk string.
Proof. by split. Qed.
#[export] Instance FieldOk_int : FieldOk Z.
Proof. by split. Qed.
#[export] Instance FieldOk_bool : FieldOk bool.
Proof. by split. Qed.
#[export] Instance FieldOk_dict : FieldOk (gmap string json).
Proof. by split. Qed.
#[export] Instance FieldNonNull_str : FieldNonNull string.
Proof. by split. Qed.
#[export] Instance FieldNonNull_int : FieldNonNull Z.
Proof. by split. Qed.
#[export] Instance FieldNonNull_dict : FieldNonNull (gmap string json).
Proof. by split. Qed.

#[export] Instance FieldOk_list `{FieldOk A} : FieldOk (list A).
Proof.
  split. intros l. cbn. induction l as [|x l IH]; [done|].
  cbn. rewrite validate_dump. cbn. by rewrite IH.
Qed.

#[export] Instance FieldNonNull_list `{Field A} : FieldNonNull (list A).
Proof. by split. Qed.

#[export] Instance FieldOk_optional `{FieldOk A} `{!FieldNonNull A}
  : FieldOk (option A).
Proof.
  split. intros [x|]; [|done]. cbn.
  pose proof (dump_non_null x) as Hx. rewrite validate_dump.
  by destruct (dump x).
Qed.

Lemma required_dump `{FieldOk A} (d : gmap string json) (k : string) (x : A) :
  d !! k = Some (dump x) → required d k = inr x.
Proof. intros Hk. unfold required. by rewrite Hk, validate_dump. Qed.

Lemma defaulted_dump `{FieldOk A} (d : gmap string json) (k : string) (x dflt : A) :
  d !! k = Some (dump x) → defaulted d k dflt = inr x.
Proof. intros Hk. unfold defaulted. by rewrite Hk, validate_dump. Qed.

(** The lookup of a literal key in a dict built from literal keys. *)
Ltac lookup_literal := vm_compute; reflexivity.

Lemma vbind_inr {A B} (x : Exception + A) (f : A → Exception + B) a b :
  x = inr a → f a = inr b → vbind x f = inr b.
Proof. by intros -> ?. Qed.

Lemma vbind_ext {A B} (x y : Exception + A) (f g : A → Exception + B) :
  x = y → (∀ a, f a = g a) → vbind x f = vbind y g.
Proof. intros -> Hfg. destruct y; [done|apply Hfg]. Qed.

Ltac read_field x :=
  apply (vbind_inr _ _ x);
  [ first [apply required_dump | apply defaulted_dump]; lookup_literal | ].

Lemma init_model_dump (r : OnePagerRecord) :
  OnePagerRecord_init (model_dump r) = inr r.
Proof.
  destruct r as [f1 f2 f3 f4 f5 f6 f7 f8 f9 f10 f11 f12 f13 f14 f15 f16 f17
                 f18 f19 f20 f21 f22 f23 f24 f25 f26 f27 f28 f29 f30 f31 f32
                 f33 f34].
  unfold OnePagerRecord_init, model_dump, model_dump_excl.
  cbn [id request_id session_id company_name website_url status generated_at
       duration_ms folder_title base_path container pptx_filename pptx_blob_url
       pptx_blob_path metadata_blob_url excel_provided excel_filename excel_size
       excel_blob_url excel_blob_path excel_blob_info sections_status
       sections_response section_sources product_images products company_logo
       azure_upload_ok azure_upload_error warnings error_type error_message
       created_at updated_at].
  read_field f1. read_field f2. read_field f3. read_field f4. read_field f5.
  read_field f6. read_field f7. read_field f8. read_field f9. read_field f10.
  read_field f11. read_field f12. read_field f13. read_field f14.
  read_field f15. read_field f16. read_field f17. read_field f18.
  read_field f19. read_field f20. read_field f21. read_field f22.
  read_field f23. read_field f24. read_field f25. read_field f26.
  read_field f27. read_field f28. read_field f29. read_field f30.
  read_field f31. read_field f32. read_field f33. read_field f34.
  reflexivity.
Qed.

Lemma required_alike `{Field A} d1 d2 k :
  d1 !! k = d2 !! k → required (A:=A) d1 k = required d2 k.
Proof. unfold required. by intros ->. Qed.

Lemma defaulted_alike `{Field A} d1 d2 k (dflt : A) :
  d1 !! k = d2 !! k → defaulted d1 k dflt = defaulted d2 k dflt.
Proof. unfold defaulted. by intros ->. Qed.

Lemma defaulted_null_absent d1 d2 k :
  d1 !! k = Some JNull → d2 !! k = None →
  defaulted d1 k (None : option string) = defaulted d2 k None.
Proof. unfold defaulted. by intros -> ->. Qed.

Ltac same_field H :=
  let Hk := fresh "Hk" in
  apply Forall_cons_1 in H as [Hk H];
  apply vbind_ext;
  [ destruct Hk as [Hk|[[Hk|Hk] [? ?]]];
    solve [ apply required_alike; exact Hk
          | apply defaulted_alike; exact Hk
          | apply defaulted_null_absent; assumption
          | discriminate Hk ]
  | clear Hk; intros ? ].

Lemma init_alike d1 d2 :
  Forall (reads_alike d1 d2) field_names →
  OnePagerRecord_init d1 = OnePagerRecord_init d2.
Proof.
  intros H. unfold field_names in H. unfold OnePagerRecord_init.
  do 34 (same_field H).
  reflexivity.
Qed.

Ltac field_of H :=
  match type of H with
  | vbind ?c _ = inr _ =>
      let E := fresh "E" in
      destruct c eqn:E; [discriminate H | cbn [vbind] in H]
  end.

Lemma init_inr d x :
  OnePagerRecord_init d = inr x →
  defaulted d "id" None = inr (id x)
  ∧ required d "status" = inr (status x)
  ∧ defaulted d "excel_blob_url" None = inr (excel_blob_url x)
  ∧ defaulted d "excel_blob_path" None = inr (excel_blob_path x)
  ∧ defaulted d "excel_blob_info" None = inr (excel_blob_info x)
  ∧ defaulted d "created_at" None = inr (created_at x)
  ∧ defaulted d "updated_at" None = inr (updated_at x).
Proof.
  unfold OnePagerRecord_init. intros H.
  do 34 (field_of H).
  injection H as <-. cbn. done.
Qed.

Ltac skip_field :=
  match goal with
  | |- ∃ e, vbind ?c _ = inl e =>
      destruct c; [by eexists | cbn [vbind]]
  end.

Lemma init_excel_blob_info_raises d e :
  defaulted d "excel_blob_info" (None : option (gmap string json)) = inl e →
  ∃ e', OnePagerRecord_init d = inl e'.
Proof.
  intros H. unfold OnePagerRecord_init.
  do 20 skip_field. rewrite H. by eexists.
Qed.

(** ** What each method does with the answer of the client *)

Lemma py_truthy_or a b : py_truthy (py_or a b) = py_truthy a || py_truthy b.
Proof. unfold py_or. by destruct (py_truthy a) eqn:Ha. Qed.

Section Unfold.
Context {clock : Clock} {C St : Type} {tc : TableClient C St}.
Implicit Types (self : DatabaseService C) (w : world St).

Lemma create_unfold self r w :
  create_one_pager_record self r w =
    answer_of
      (execute (client self) (insert_query (created_row r (isoformat (ticks w))))
               (remote w))
      (World (S (ticks w))).
Proof.
  unfold create_one_pager_record, try_except, mbind, M_bind, run,
    utcnow_isoformat, table, created_row, answer_of, insert_query. cbn.
  destruct (execute _ _ _) as [[e|[|row result]] s]; cbn; try done.
  unfold lift_exn, mret, M_ret.
  by destruct (_extract_record_from_db row).
Qed.

Lemma update_atomic_unfold self record_id expected_status d w :
  update_one_pager_record_atomic self record_id expected_status (d, w) =
    let payload := update_payload d (isoformat (ticks w)) in
    answer_of
      (execute (client self) (update_query record_id expected_status payload)
               (remote w))
      (λ s, (payload, World (S (ticks w)) s)).
Proof.
  unfold update_one_pager_record_atomic, try_except, mbind, M_bind, in_world,
    run, utcnow_isoformat, update_data_pop, update_data_set, update_data_read,
    dict_pop, update_payload, excel_pack, update_query, guard, table, q_eq,
    dict_get, answer_of.
  cbn. rewrite py_truthy_or.
  rewrite (lookup_delete_ne d "excel_blob_url" "excel_blob_path") by done.
  destruct (py_truthy _ || py_truthy _); cbn;
    destruct expected_status as [expected|]; cbn;
    destruct (execute _ _ _) as [[e|[|row result]] s]; cbn; try done;
    unfold lift_exn, mret, M_ret;
    by destruct (_extract_record_from_db row).
Qed.

Lemma update_unfold self record_id d w :
  update_one_pager_record self record_id (d, w) =
    let payload := update_payload d (isoformat (ticks w)) in
    answer_of
      (execute (client self) (update_query record_id None payload) (remote w))
      (λ s, (payload, World (S (ticks w)) s)).
Proof. apply (update_atomic_unfold self record_id None). Qed.

Lemma get_unfold self record_id w :
  get_one_pager_record self record_id w =
    answer_of (execute (client self) (select_query record_id) (remote w))
              (World (ticks w)).
Proof.
  unfold get_one_pager_record, try_except, mbind, M_bind, run, table, q_eq,
    answer_of, select_query.
  cbn.
  destruct (execute _ _ _) as [[e|[|row result]] s]; cbn; try done.
  unfold lift_exn, mret, M_ret.
  by destruct (_extract_record_from_db row).
Qed.
End Unfold.

(** ** On the reference store *)

Lemma prepare_unfold (r : OnePagerRecord) :
  _prepare_record_for_db r =
    <["excel_blob_info" :=
        excel_pack (dump (excel_blob_url r)) (dump (excel_blob_path r))]>
      (delete "excel_blob_path" (delete "excel_blob_url" (model_dump_excl r))).
Proof.
  unfold _prepare_record_for_db, dict_pop, excel_pack.
  rewrite (lookup_delete_ne _ "excel_blob_url" "excel_blob_path") by done.
  replace (model_dump_excl r !! "excel_blob_url")
    with (Some (dump (excel_blob_url r))) by lookup_literal.
  replace (model_dump_excl r !! "excel_blob_path")
    with (Some (dump (excel_blob_path r))) by lookup_literal.
  cbn [default]. rewrite py_truthy_or.
  by destruct (py_truthy _ || py_truthy _).
Qed.

Lemma extract_created_row (r : OnePagerRecord) (i : Z) (now : string) :
  _extract_record_from_db (<["id" := JInt i]> (created_row r now))
  = inr (persisted r i now).
Proof.
  unfold _extract_record_from_db.
  rewrite (init_alike _ (model_dump (persisted r i now)));
    [apply init_model_dump|].
  unfold created_row, persisted. rewrite prepare_unfold. unfold excel_pack.
  destruct (py_truthy _ || py_truthy _);
    unfold field_names;
    repeat (apply List.Forall_cons; [left; lookup_literal|]);
    apply List.Forall_nil.
Qed.

(** ** Reading the excel pair back *)

Lemma extract_fields_unpacked (d m : gmap string json) :
  d !! "excel_blob_info" = Some (JObj m) → m ≠ ∅ →
  _extract_excel_fields d
  = <["excel_blob_path" := dict_get m "excel_blob_path"]>
      (<["excel_blob_url" := dict_get m "excel_blob_url"]> d).
Proof.
  intros Hd Hm. unfold _extract_excel_fields, dict_get.
  rewrite lookup_insert_ne, Hd by done.
  cbn -[bool_decide]. by rewrite bool_decide_eq_false_2.
Qed.

Lemma extract_fields_nulled (d : gmap string json) :
  py_truthy (dict_get d "excel_blob_info")
    && isinstance_dict (dict_get d "excel_blob_info") = false →
  _extract_excel_fields d
  = <["excel_blob_path" := JNull]> (<["excel_blob_url" := JNull]> d).
Proof. intros Hd. unfold _extract_excel_fields. by rewrite Hd. Qed.

Lemma extract_fields_pair (d : gmap string json) (u p : json) :
  d !! "excel_blob_info"
    = Some (JObj {[ "excel_blob_url" := u; "excel_blob_path" := p ]}) →
  _extract_excel_fields d !! "excel_blob_url" = Some u
  ∧ _extract_excel_fields d !! "excel_blob_path" = Some p.
Proof.
  intros Hd.
  rewrite (extract_fields_unpacked d _ Hd) by apply insert_non_empty.
  split; by simplify_map_eq.
Qed.

Lemma passes_id (row : gmap string json) (i : Z) :
  passes [("id", JInt i)] row = true ↔ row !! "id" = Some (JInt i).
Proof.
  unfold passes. cbn. rewrite andb_true_r.
  destruct (row !! "id") as [[]|] eqn:E; cbn; try (split; by intros [=]).
  rewrite Z.eqb_eq. split; [by intros ->|by intros [= ->]].
Qed.

Lemma filter_id_unused (s : table_state) :
  id_unused s →
  filter (λ r, passes [("id", JInt (next_id s))] r) (rows s) = [].
Proof.
  unfold id_unused. induction 1 as [|row l Hrow _ IH]; [done|].
  rewrite list.filter_cons_False; [done|].
  intros Hp%Is_true_true%passes_id. done.
Qed.

Lemma persisted_store_fields (r : OnePagerRecord) (i : Z) (now : string) :
  id (persisted r i now) = Some i
  ∧ created_at (persisted r i now) = Some now
  ∧ updated_at (persisted r i now) = Some now.
Proof. unfold persisted. by destruct (py_truthy _ || py_truthy _). Qed.

Section CreateGet.
Context {clock : Clock}.
Implicit Types (self : DatabaseService (string * string)) (w : world table_state).

Lemma create_mem self r w :
  create_one_pager_record self r w =
    let now := isoformat (ticks w) in
    let i := next_id (remote w) in
    (inr (Some (persisted r i now)),
     World (S (ticks w))
           (TableState (rows (remote w) ++ [<["id" := JInt i]> (created_row r now)])
                       (i + 1))).
Proof.
  rewrite create_unfold. unfold answer_of. cbn. unfold first_record.
  by rewrite extract_created_row.
Qed.

Lemma get_mem self record_id w :
  get_one_pager_record self record_id w =
    (inr (first_record
            (filter (λ r, passes [("id", JInt record_id)] r) (rows (remote w)))),
     w).
Proof. rewrite get_unfold. unfold answer_of. cbn. by destruct w. Qed.

(** C1: for a record whose [excel_blob_url] and [excel_blob_path] are both
    non-empty strings, unpacking the row that [_prepare_record_for_db] packs
    gives the two strings back; [create] answers a record with a
    store-assigned id, and [get] on that id answers a record with the same
    two values. *)
Theorem create_then_get_excel_pair self r w url path :
  id_unused (remote w) →
  excel_blob_url r = Some url → url ≠ "" →
  excel_blob_path r = Some path → path ≠ "" →
  _extract_excel_fields (_prepare_record_for_db r) !! "excel_blob_url"
    = Some (JStr url)
  ∧ _extract_excel_fields (_prepare_record_for_db r) !! "excel_blob_path"
    = Some (JStr path)
  ∧ ∃ created w1 i,
      create_one_pager_record self r w = (inr (Some created), w1)
      ∧ id created = Some i
      ∧ ∃ fetched,
          get_one_pager_record self i w1 = (inr (Some fetched), w1)
          ∧ excel_blob_url fetched = Some url
          ∧ excel_blob_path fetched = Some path.
Proof.
  intros Hfresh Hurl Hu Hpath Hp.
  assert (py_truthy (dump (excel_blob_url r)) = true) as Htruthy.
  { rewrite Hurl. cbn. apply negb_true_iff. by apply String.eqb_neq. }
  assert (_prepare_record_for_db r !! "excel_blob_info"
          = Some (JObj {[ "excel_blob_url" := JStr url;
                          "excel_blob_path" := JStr path ]})) as Hinfo.
  { rewrite prepare_unfold, lookup_insert_eq. unfold excel_pack.
    by rewrite Htruthy, Hurl, Hpath. }
  destruct (extract_fields_pair _ _ _ Hinfo) as [Hback_url Hback_path].
  split; [exact Hback_url|]. split; [exact Hback_path|].
  rewrite create_mem. cbn zeta.
  eexists _, _, (next_id (remote w)). split; [done|].
  split; [apply persisted_store_fields|].
  exists (persisted r (next_id (remote w)) (isoformat (ticks w))).
  rewrite get_mem. cbn [remote rows].
  rewrite list.filter_app, filter_id_unused by done.
  rewrite list.filter_cons_True
    by (apply Is_true_true, passes_id, lookup_insert_eq).
  cbn. unfold first_record. rewrite extract_created_row.
  split; [done|]. unfold persisted. by rewrite Htruthy, <- Hurl, <- Hpath.
Qed.
End CreateGet.

(** C1, a concrete run: the sample record in the empty table. *)
Lemma create_then_get_excel_pair_witness :
  _extract_excel_fields (_prepare_record_for_db sample_record) !! "excel_blob_url"
    = Some (JStr "https://blob.example/data.xlsx")
  ∧ _extract_excel_fields (_prepare_record_for_db sample_record)
      !! "excel_blob_path"
    = Some (JStr "one-pagers/acme/excel/data.xlsx")
  ∧ ∃ created w1 i,
    create_one_pager_record (clock := sample_clock) sample_service sample_record
      empty_world = (inr (Some created), w1)
    ∧ id created = Some i
    ∧ ∃ fetched,
        get_one_pager_record sample_service i w1 = (inr (Some fetched), w1)
        ∧ excel_blob_url fetched = Some "https://blob.example/data.xlsx"
        ∧ excel_blob_path fetched = Some "one-pagers/acme/excel/data.xlsx".
Proof.
  apply (create_then_get_excel_pair (clock := sample_clock) sample_service
           sample_record empty_world);
    [apply List.Forall_nil|reflexivity|discriminate|reflexivity|discriminate].
Defined.

(** ** The guarded update on the reference store *)


Lemma lookup_update_payload (d : gmap string json) (now k : string) :
  k ≠ "updated_at" → k ≠ "excel_blob_info" →
  k ≠ "excel_blob_url" → k ≠ "excel_blob_path" →
  update_payload d now !! k = d !! k.
Proof.
  intros. unfold update_payload.
  by rewrite !lookup_insert_ne, !lookup_delete_ne.
Qed.

Lemma lookup_update_payload_info (d : gmap string json) (now : string) :
  update_payload d now !! "excel_blob_info"
  = Some (excel_pack (dict_get d "excel_blob_url") (dict_get d "excel_blob_path")).
Proof. unfold update_payload. by rewrite lookup_insert_ne, lookup_insert_eq. Qed.

Lemma lookup_update_payload_updated_at (d : gmap string json) (now : string) :
  update_payload d now !! "updated_at" = Some (JStr now).
Proof. unfold update_payload. by rewrite lookup_insert_eq. Qed.

Section MemUpdate.
Context `{Clock}.
Implicit Types (self : DatabaseService (string * string)) (w : world table_state).

Lemma update_atomic_mem self record_id expected_status d w :
  update_one_pager_record_atomic self record_id expected_status (d, w) =
    let payload := update_payload d (isoformat (ticks w)) in
    let hit r := passes (guard record_id expected_status) r in
    (inr (first_record ((λ r, payload ∪ r) <$> filter (λ r, hit r) (rows (remote w)))),
     (payload,
      World (S (ticks w))
            (TableState ((λ r, if hit r then payload ∪ r else r) <$> rows (remote w))
                        (next_id (remote w))))).
Proof. by rewrite update_atomic_unfold. Qed.

End MemUpdate.


Lemma fmap_unchanged (f : gmap string json → bool) (g : gmap string json → gmap string json)
    (l : list (gmap string json)) :
  filter (λ r, f r) l = [] → (λ r, if f r then g r else r) <$> l = l.
Proof.
  induction l as [|r l IH]; [done|]. cbn [fmap list_fmap].
  destruct (f r) eqn:Hr.
  - rewrite list.filter_cons_True; [done|by apply Is_true_true].
  - rewrite list.filter_cons_False; [|intros Hp%Is_true_true; congruence].
    intros ?. by rewrite IH.
Qed.


Section Guard.
Context {clock : Clock}.
Implicit Types (self : DatabaseService (string * string)) (w : world table_state).


End Guard.


(** ** What an update leaves in a row *)

Lemma lookup_merged_kept (d r : gmap string json) (now k : string) :
  d !! k = None →
  k ≠ "updated_at" → k ≠ "excel_blob_info" →
  (update_payload d now ∪ r) !! k = r !! k.
Proof.
  intros Hd ? ?. apply lookup_union_r. unfold update_payload.
  rewrite !lookup_insert_ne by done.
  destruct (decide (k = "excel_blob_path")) as [->|];
    [by rewrite lookup_delete_eq|rewrite lookup_delete_ne by done].
  destruct (decide (k = "excel_blob_url")) as [->|];
    [by rewrite lookup_delete_eq|by rewrite lookup_delete_ne].
Qed.

Lemma lookup_merged_updated_at (d r : gmap string json) (now : string) :
  (update_payload d now ∪ r) !! "updated_at" = Some (JStr now).
Proof. apply lookup_union_Some_l, lookup_update_payload_updated_at. Qed.

Lemma lookup_merged_info (d r : gmap string json) (now : string) :
  (update_payload d now ∪ r) !! "excel_blob_info"
  = Some (excel_pack (dict_get d "excel_blob_url") (dict_get d "excel_blob_path")).
Proof. apply lookup_union_Some_l, lookup_update_payload_info. Qed.

(** C7, as stated, fails: a partial field set that carries [created_at]
    replaces the creation stamp of the row. *)
Lemma update_overwrites_created_at :
  let out :=
    update_one_pager_record (clock := sample_clock) sample_service 1
      ({[ "created_at" := JStr "1999-12-31T00:00:00" ]}, sample_world) in
  (λ r : gmap string json, r !! "created_at") <$> rows (remote sample_world)
    = [Some (JStr "2025-01-01T00:00:00")]
  ∧ (λ r : gmap string json, r !! "created_at") <$> rows (remote out.2.2)
    = [Some (JStr "1999-12-31T00:00:00")]
  ∧ created_at <$> answered out.1 = Some (Some "1999-12-31T00:00:00").
Proof. cbn zeta. split; [|split]; reflexivity. Qed.

Section StoreFields.
Context {clock : Clock}.
Implicit Types (self : DatabaseService (string * string)) (w : world table_state).

(** C7 (amended): when the partial field set has no [id] and no
    [created_at] key, both update methods leave the id and the creation
    stamp of every row as they were; the rows that pass the filter get
    [updated_at] set to the current time, whatever [updated_at] the caller
    supplied, and all other rows are unchanged. *)
Theorem update_keeps_id_created_at self record_id expected_status d w :
  d !! "id" = None →
  d !! "created_at" = None →
  let now := isoformat (ticks w) in
  let settled (hit : gmap string json → bool) (after : table_state) :=
    ∃ f, rows after = f <$> rows (remote w)
         ∧ ∀ r, f r !! "id" = r !! "id"
                ∧ f r !! "created_at" = r !! "created_at"
                ∧ (hit r = true → f r !! "updated_at" = Some (JStr now))
                ∧ (hit r = false → f r = r) in
  settled (passes (guard record_id expected_status))
    (remote (update_one_pager_record_atomic self record_id expected_status
               (d, w)).2.2)
  ∧ settled (passes (guard record_id None))
      (remote (update_one_pager_record self record_id (d, w)).2.2).
Proof.
  intros Hid Hcreated now settled.
  assert (∀ st, settled (passes (guard record_id st))
                  (remote (update_one_pager_record_atomic self record_id st
                             (d, w)).2.2)) as Hboth.
  { intros st. rewrite update_atomic_mem. cbn [fst snd remote].
    eexists. split; [reflexivity|]. intros r. cbn beta.
    destruct (passes (guard record_id st) r).
    - rewrite !lookup_merged_kept by done.
      by rewrite lookup_merged_updated_at.
    - done. }
  split; [apply Hboth|apply (Hboth None)].
Qed.
End StoreFields.

(** C7, a concrete run: a status update of the sample row that also tries to
    set [updated_at] keeps id and creation stamp and re-stamps [updated_at]. *)
Lemma update_keeps_id_created_at_witness :
  let d := {[ "status" := JStr "success"; "updated_at" := JStr "never" ]} in
  let out := update_one_pager_record (clock := sample_clock) sample_service 1
               (d, sample_world) in
  d !! "id" = None ∧ d !! "created_at" = None
  ∧ (λ r : gmap string json, (r !! "id", r !! "created_at", r !! "updated_at"))
      <$> rows (remote out.2.2)
    = [(Some (JInt 1), Some (JStr "2025-01-01T00:00:00"),
        Some (JStr "2025-01-01T00:00:01"))].
Proof.
  intros d out.
  assert (Hid : d !! "id" = None) by reflexivity.
  assert (Hcreated : d !! "created_at" = None) by reflexivity.
  destruct (update_keeps_id_created_at (clock := sample_clock) sample_service 1
              None d sample_world Hid Hcreated) as [_ (f & Hrows & Hf)].
  split; [done|]. split; [done|].
  fold out in Hrows. rewrite Hrows.
  change (rows (remote sample_world)) with [sample_row]. cbn [fmap list_fmap].
  destruct (Hf sample_row) as (-> & -> & -> & _); reflexivity.
Defined.

(** ** Records read back from rows holding a pair *)

Lemma validated_optional_str (v : json) (o : option string) :
  validate v = Some o → dump o = v.
Proof. destruct v; cbn; intros [= <-]; done. Qed.

Lemma read_back_excel_pair (d : gmap string json) (u p : json) (x : OnePagerRecord) :
  d !! "excel_blob_url" = Some u →
  d !! "excel_blob_path" = Some p →
  OnePagerRecord_init d = inr x →
  dump (excel_blob_url x) = u ∧ dump (excel_blob_path x) = p.
Proof.
  intros Hu Hp (_ & _ & Hurl & Hpath & _)%init_inr.
  unfold defaulted in Hurl, Hpath. rewrite Hu in Hurl. rewrite Hp in Hpath.
  destruct (validate u) as [ou|] eqn:Eu; [|done].
  destruct (validate p) as [op|] eqn:Ep; [|done].
  injection Hurl as <-. injection Hpath as <-.
  split; by apply validated_optional_str.
Qed.

Lemma read_back_excel_blob_info (d : gmap string json) (x : OnePagerRecord) :
  d !! "excel_blob_info" = Some JNull →
  OnePagerRecord_init d = inr x →
  excel_blob_info x = None.
Proof.
  intros Hi (_ & _ & _ & _ & Hinfo & _)%init_inr.
  unfold defaulted in Hinfo. rewrite Hi in Hinfo. cbn in Hinfo. by injection Hinfo.
Qed.

Lemma dump_null (o : option string) : dump o = JNull → o = None.
Proof. by destruct o. Qed.

Lemma holds_pair_intro (u p : json) (row : gmap string json) :
  row !! "excel_blob_info" = Some (excel_pack u p) → holds_pair u p row.
Proof.
  unfold holds_pair, excel_pack. intros Hrow.
  destruct (py_truthy u || py_truthy p).
  - destruct (extract_fields_pair row u p Hrow) as [Hu Hp].
    repeat split; [done..| |];
      by destruct (read_back_excel_pair _ u p x Hu Hp).
  - assert (_extract_excel_fields row
            = <["excel_blob_path" := JNull]> (<["excel_blob_url" := JNull]> row))
      as Hx by (apply extract_fields_nulled; unfold dict_get; by rewrite Hrow).
    assert (_extract_excel_fields row !! "excel_blob_url" = Some JNull) as Hu
      by (rewrite Hx; by simplify_map_eq).
    assert (_extract_excel_fields row !! "excel_blob_path" = Some JNull) as Hp
      by (rewrite Hx; by simplify_map_eq).
    assert (_extract_excel_fields row !! "excel_blob_info" = Some JNull) as Hi
      by (rewrite Hx; by simplify_map_eq).
    repeat split; [done..| | |]; intros.
    + apply dump_null. by destruct (read_back_excel_pair _ JNull JNull x Hu Hp).
    + apply dump_null. by destruct (read_back_excel_pair _ JNull JNull x Hu Hp).
    + by apply (read_back_excel_blob_info _ x Hi).
Qed.

Lemma created_row_info (r : OnePagerRecord) (i : Z) (now : string) :
  (<["id" := JInt i]> (created_row r now)) !! "excel_blob_info"
  = Some (excel_pack (dump (excel_blob_url r)) (dump (excel_blob_path r))).
Proof.
  unfold created_row. rewrite prepare_unfold.
  rewrite !lookup_insert_ne by done. by rewrite lookup_insert_eq.
Qed.

Section Pair.
Context {clock : Clock}.
Implicit Types (self : DatabaseService (string * string)) (w : world table_state).

(** C4: a partial update that supplies no truthy [excel_blob_url] and no
    truthy [excel_blob_path] writes [excel_blob_info] as null into the field
    set it sends (the dict it leaves behind), and every row
    the update reaches holds a null column afterwards and reads back
    without a pair, whatever it held before; rows it does not reach are
    unchanged.  This holds for both update methods. *)
Theorem update_without_excel_erases_pair self record_id expected_status d w :
  py_truthy (dict_get d "excel_blob_url") = false →
  py_truthy (dict_get d "excel_blob_path") = false →
  let now := isoformat (ticks w) in
  let erased (hit : gmap string json → bool) (after : table_state) :=
    ∃ f, rows after = f <$> rows (remote w)
         ∧ ∀ r, (hit r = true → pair_erased (f r))
                ∧ (hit r = false → f r = r) in
  update_payload d now !! "excel_blob_info" = Some JNull
  ∧ (update_one_pager_record_atomic self record_id expected_status (d, w)).2.1
    = update_payload d now
  ∧ (update_one_pager_record self record_id (d, w)).2.1 = update_payload d now
  ∧ erased (passes (guard record_id expected_status))
      (remote (update_one_pager_record_atomic self record_id expected_status
                 (d, w)).2.2)
  ∧ erased (passes (guard record_id None))
      (remote (update_one_pager_record self record_id (d, w)).2.2).
Proof.
  intros Hu Hp now erased.
  assert (excel_pack (dict_get d "excel_blob_url") (dict_get d "excel_blob_path")
          = JNull) as Hpack by (unfold excel_pack; by rewrite Hu, Hp).
  split; [by rewrite lookup_update_payload_info, Hpack|].
  split; [by rewrite update_atomic_mem|].
  split; [by rewrite update_unfold|].
  assert (∀ st, erased (passes (guard record_id st))
                  (remote (update_one_pager_record_atomic self record_id st
                             (d, w)).2.2)) as Hboth.
  { intros st. rewrite update_atomic_mem. cbn [fst snd remote].
    eexists. split; [reflexivity|]. intros r. cbn beta.
    destruct (passes (guard record_id st) r); split; try done.
    intros _.
    pose proof (holds_pair_intro _ _ _ (lookup_merged_info d r now)) as Hh.
    unfold holds_pair in Hh. by rewrite Hu, Hp in Hh. }
  split; [apply Hboth|apply (Hboth None)].
Qed.

(** C3 (amended): on every write the stored [excel_blob_info] column is the
    two-key object holding both values exactly as supplied when at least
    one of them is truthy (an absent one as null, an empty string as the
    empty string), and null when neither is; a record read back from such
    a row carries the same two values.  For [create] the row is the one
    appended to the table and the record answered is read back from it;
    for the two update methods it is every row the update reaches. *)
Theorem excel_pair_stored_as_supplied self r record_id expected_status d w :
  let now := isoformat (ticks w) in
  let u := dict_get d "excel_blob_url" in
  let p := dict_get d "excel_blob_path" in
  let updated (hit : gmap string json → bool) (after : table_state) :=
    ∃ f, rows after = f <$> rows (remote w)
         ∧ ∀ r, (hit r = true → holds_pair u p (f r))
                ∧ (hit r = false → f r = r) in
  (∃ row created w',
      create_one_pager_record self r w = (inr (Some created), w')
      ∧ rows (remote w') = (rows (remote w) ++ [row])%list
      ∧ holds_pair (dump (excel_blob_url r)) (dump (excel_blob_path r)) row
      ∧ _extract_record_from_db row = inr created)
  ∧ updated (passes (guard record_id expected_status))
      (remote (update_one_pager_record_atomic self record_id expected_status
                 (d, w)).2.2)
  ∧ updated (passes (guard record_id None))
      (remote (update_one_pager_record self record_id (d, w)).2.2).
Proof.
  intros now u p updated. split.
  - rewrite create_mem. cbn zeta. eexists _, _, _.
    split; [reflexivity|]. cbn [remote rows]. split; [reflexivity|].
    split; [apply holds_pair_intro, created_row_info|].
    apply extract_created_row.
  - assert (∀ st, updated (passes (guard record_id st))
                    (remote (update_one_pager_record_atomic self record_id st
                               (d, w)).2.2)) as Hboth.
    { intros st. rewrite update_atomic_mem. cbn [fst snd remote].
      eexists. split; [reflexivity|]. intros row. cbn beta.
      destruct (passes (guard record_id st) row); split; try done.
      intros _. apply holds_pair_intro, lookup_merged_info. }
    split; [apply Hboth|apply (Hboth None)].
Qed.
End Pair.

(** C3, as stated, fails: an empty [excel_blob_url] next to a path is stored
    as the empty string, not as null, and is read back as the empty string. *)
Lemma empty_excel_field_not_null :
  let out :=
    create_one_pager_record (clock := sample_clock) sample_service
      half_empty_record empty_world in
  (λ row, obj_get (dict_get row "excel_blob_info") "excel_blob_url")
    <$> rows (remote out.2) = [JStr ""]
  ∧ excel_blob_url <$> answered out.1 = Some (Some "")
  ∧ JStr "" ≠ JNull.
Proof. cbn zeta. split; [|split]; [reflexivity..|done]. Qed.

(** C3, a concrete run: only the url is supplied on create; the row stores
    the pair with a null path and reads back as the url and no path. *)
Lemma excel_pair_stored_as_supplied_witness :
  let out :=
    create_one_pager_record (clock := sample_clock) sample_service
      url_only_record empty_world in
  (λ row : gmap string json, row !! "excel_blob_info") <$> rows (remote out.2)
    = [Some (JObj {[ "excel_blob_url" := JStr "https://blob.example/data.xlsx";
                     "excel_blob_path" := JNull ]})]
  ∧ (λ x, (excel_blob_url x, excel_blob_path x)) <$> answered out.1
    = Some (Some "https://blob.example/data.xlsx", None).
Proof.
  intros out.
  destruct (excel_pair_stored_as_supplied (clock := sample_clock) sample_service
              url_only_record 1 None ∅ empty_world)
    as [(row & created & w' & Hcreate & Hrows & Hpair & Hread) _].
  fold out in Hcreate. rewrite Hcreate. cbn [fst snd answered fmap option_fmap option_map].
  change (rows (remote empty_world)) with (@nil (gmap string json)) in Hrows.
  rewrite Hrows. cbn [app fmap list_fmap].
  destruct Hpair as (-> & _ & _ & Hback).
  destruct (Hback created Hread) as [Hu Hp].
  split; [reflexivity|].
  change (dump (excel_blob_url url_only_record))
    with (JStr "https://blob.example/data.xlsx") in Hu.
  change (dump (excel_blob_path url_only_record)) with JNull in Hp.
  destruct (excel_blob_url created) as [url|]; [|discriminate Hu].
  destruct (excel_blob_path created) as [path|]; [discriminate Hp|].
  injection Hu as ->. reflexivity.
Defined.

(** C4, a concrete run: a status-only update of the sample row, which held a
    pair, leaves it with a null column. *)
Lemma update_without_excel_erases_pair_witness :
  let d : gmap string json := {[ "status" := JStr "success" ]} in
  let out := update_one_pager_record (clock := sample_clock) sample_service 1
               (d, sample_world) in
  (λ r : gmap string json, py_truthy (dict_get r "excel_blob_info"))
    <$> rows (remote sample_world) = [true]
  ∧ (λ r : gmap string json, r !! "excel_blob_info") <$> rows (remote out.2.2)
    = [Some JNull].
Proof.
  intros d out. split; [reflexivity|].
  assert (Hu : py_truthy (dict_get d "excel_blob_url") = false) by reflexivity.
  assert (Hp : py_truthy (dict_get d "excel_blob_path") = false) by reflexivity.
  destruct (update_without_excel_erases_pair (clock := sample_clock)
              sample_service 1 None d sample_world Hu Hp)
    as (_ & _ & _ & _ & f & Hrows & Hf).
  fold out in Hrows. rewrite Hrows.
  change (rows (remote sample_world)) with [sample_row]. cbn [fmap list_fmap].
  destruct (Hf sample_row) as [Herased _].
  destruct (Herased eq_refl) as (-> & _). reflexivity.
Defined.

(** ** Creation *)

Section Create.
Context {clock : Clock}.
Implicit Types (self : DatabaseService (string * string)) (w : world table_state).

(** C8: the row [create] inserts carries [created_at] and [updated_at] set
    to one and the same reading of the clock and has no [id] key; it does
    not depend on the [id], [created_at] or [updated_at] of the input
    record.  The store appends that row under the next id, and [create]
    answers the record read back from it, which carries that id and the
    two stamps. *)
Theorem create_stamps_and_excludes self r w i' created' updated' :
  let now := isoformat (ticks w) in
  let i := next_id (remote w) in
  let row := created_row r now in
  let r' := with_store_fields r i' created' updated'
              (excel_blob_url r) (excel_blob_path r) (excel_blob_info r) in
  row !! "created_at" = Some (JStr now)
  ∧ row !! "updated_at" = Some (JStr now)
  ∧ row !! "id" = None
  ∧ created_row r' now = row
  ∧ create_one_pager_record self r w
    = (inr (Some (persisted r i now)),
       World (S (ticks w))
             (TableState (rows (remote w) ++ [<["id" := JInt i]> row]) (i + 1)))
  ∧ id (persisted r i now) = Some i
  ∧ created_at (persisted r i now) = Some now
  ∧ updated_at (persisted r i now) = Some now.
Proof.
  intros now i row r'.
  split; [unfold row, created_row; by rewrite lookup_insert_ne, lookup_insert_eq|].
  split; [unfold row, created_row; by rewrite lookup_insert_eq|].
  split.
  { unfold row, created_row. rewrite prepare_unfold.
    rewrite !lookup_insert_ne, !lookup_delete_ne by done. lookup_literal. }
  split; [reflexivity|].
  split; [apply create_mem|apply persisted_store_fields].
Qed.
End Create.

(** ** The supplied [excel_blob_info] never reaches the store *)

Lemma update_payload_ignores_info (d : gmap string json) (v : json) (now : string) :
  update_payload (<["excel_blob_info" := v]> d) now = update_payload d now.
Proof.
  unfold update_payload, dict_get.
  rewrite !lookup_insert_ne by done.
  rewrite !(delete_insert_ne _ _ "excel_blob_info") by done.
  by rewrite insert_insert_eq.
Qed.

Section AnyClient.
Context {clock : Clock} {C St : Type} {tc : TableClient C St}.
Implicit Types (self : DatabaseService C) (w : world St).

(** C10: on every write the [excel_blob_info] sent to the store is the
    value the packing rule computes from [excel_blob_url] and
    [excel_blob_path].  An [excel_blob_info] on the input record, or under
    that key of the partial field set, changes neither the request nor the
    outcome of [create], [update] or [update_atomic]. *)
Theorem excel_blob_info_always_recomputed
    self r info record_id expected_status d v w :
  let now := isoformat (ticks w) in
  let r' := with_store_fields r (id r) (created_at r) (updated_at r)
              (excel_blob_url r) (excel_blob_path r) info in
  let payload := update_payload d now in
  created_row r now !! "excel_blob_info"
    = Some (excel_pack (dump (excel_blob_url r)) (dump (excel_blob_path r)))
  ∧ created_row r' now = created_row r now
  ∧ create_one_pager_record self r' w = create_one_pager_record self r w
  ∧ create_one_pager_record self r w
    = answer_of (execute (client self) (insert_query (created_row r now)) (remote w))
                (World (S (ticks w)))
  ∧ payload !! "excel_blob_info"
    = Some (excel_pack (dict_get d "excel_blob_url") (dict_get d "excel_blob_path"))
  ∧ update_payload (<["excel_blob_info" := v]> d) now = payload
  ∧ update_one_pager_record self record_id (<["excel_blob_info" := v]> d, w)
    = update_one_pager_record self record_id (d, w)
  ∧ update_one_pager_record_atomic self record_id expected_status
      (<["excel_blob_info" := v]> d, w)
    = update_one_pager_record_atomic self record_id expected_status (d, w)
  ∧ update_one_pager_record self record_id (d, w)
    = answer_of (execute (client self) (update_query record_id None payload)
                         (remote w))
                (λ s, (payload, World (S (ticks w)) s))
  ∧ update_one_pager_record_atomic self record_id expected_status (d, w)
    = answer_of (execute (client self)
                   (update_query record_id expected_status payload) (remote w))
                (λ s, (payload, World (S (ticks w)) s)).
Proof.
  intros now r' payload.
  assert (created_row r' now = created_row r now) as Hrow by reflexivity.
  split.
  { unfold created_row. rewrite prepare_unfold.
    rewrite !lookup_insert_ne by done. by rewrite lookup_insert_eq. }
  split; [exact Hrow|].
  split; [rewrite !create_unfold; fold now; by rewrite Hrow|].
  split; [apply create_unfold|].
  split; [apply lookup_update_payload_info|].
  split; [apply update_payload_ignores_info|].
  split; [by rewrite !update_unfold, update_payload_ignores_info|].
  split; [by rewrite !update_atomic_unfold, update_payload_ignores_info|].
  split; [apply update_unfold|apply update_atomic_unfold].
Qed.

(** C6: without a guard, [update_atomic] is [update]: the two methods are
    the same computation, so from every dict and world they send the same
    request (the filter on the id alone, the packed and re-stamped field
    set), leave the same dict and world, and answer the same value. *)
Theorem update_atomic_unguarded_is_update self record_id d w :
  let payload := update_payload d (isoformat (ticks w)) in
  update_one_pager_record_atomic self record_id None
    = update_one_pager_record self record_id
  ∧ update_one_pager_record_atomic self record_id None (d, w)
    = answer_of (execute (client self) (update_query record_id None payload)
                         (remote w))
                (λ s, (payload, World (S (ticks w)) s))
  ∧ update_one_pager_record self record_id (d, w)
    = answer_of (execute (client self) (update_query record_id None payload)
                         (remote w))
                (λ s, (payload, World (S (ticks w)) s))
  ∧ q_filters (update_query record_id None payload) = [("id", JInt record_id)]
  ∧ q_verb (update_query record_id None payload) = Update payload
  ∧ payload !! "updated_at" = Some (JStr (isoformat (ticks w))).
Proof.
  intros payload.
  split; [reflexivity|].
  split; [apply update_atomic_unfold|].
  split; [apply update_unfold|].
  split; [reflexivity|]. split; [reflexivity|].
  apply lookup_update_payload_updated_at.
Qed.
End AnyClient.

(** ** Which operations raise *)

Lemma missing_falsy (v : option string) :
  py_truthy (dump v) = false ↔ missing v.
Proof.
  unfold missing. destruct v as [s|]; cbn.
  - rewrite negb_false_iff, String.eqb_eq. split; [intros ->; by right|].
    by intros [[=]|[= ->]].
  - split; [by left|done].
Qed.

Section Raising.
Context {clock : Clock} {C St : Type} {tc : TableClient C St}.
Implicit Types (self : DatabaseService C) (w : world St).

Lemma init_raises_iff (environ : gmap string string) :
  (∃ e, DatabaseService_init environ = inl e)
  ↔ missing (environ !! "SUPABASE_URL")
    ∨ missing (environ !! "SUPABASE_ANON_KEY")
    ∨ ∃ e, create_client (default "" (environ !! "SUPABASE_URL"))
                         (default "" (environ !! "SUPABASE_ANON_KEY")) = inl e.
Proof.
  unfold DatabaseService_init. rewrite <- !missing_falsy.
  destruct (py_truthy (dump (environ !! "SUPABASE_URL")));
    destruct (py_truthy (dump (environ !! "SUPABASE_ANON_KEY")));
    cbn [negb orb].
  - destruct (create_client _ _) as [e|c].
    + split; [intros _; right; right; by exists e|by eexists].
    + split; [by intros [e [=]]|by intros [[=]|[[=]|[e [=]]]]].
  - split; [intros _; right; by left|by eexists].
  - split; [intros _; by left|by eexists].
  - split; [intros _; by left|by eexists].
Qed.

Ltac run_method :=
  intros σ;
  repeat match goal with
         | σ : (_ * _)%type |- _ => destruct σ
         end;
  cbv [try_except mbind M_bind mret M_ret in_world run utcnow_isoformat
       update_data_pop update_data_set update_data_read lift_exn dict_pop];
  repeat match goal with
         | |- context [if ?b then _ else _] => destruct b
         | |- context [match ?x with _ => _ end] =>
             lazymatch x with
             | execute _ _ _ => destruct x as [[?|[|? ?]] ?]
             | _extract_record_from_db _ => destruct x
             | list_comprehension _ _ => destruct x
             | _ => fail
             end
         end;
  by eexists _, _.

Lemma methods_never_raise self r record_id expected_status name limit :
  never_raises (create_one_pager_record self r)
  ∧ never_raises (update_one_pager_record self record_id)
  ∧ never_raises (get_one_pager_record self record_id)
  ∧ never_raises (get_one_pager_records_by_company self name)
  ∧ never_raises (get_recent_one_pager_records self limit)
  ∧ never_raises (get_one_pager_record_by_request_id self name)
  ∧ never_raises (get_in_progress_records_by_company self name)
  ∧ never_raises (get_recent_request_by_company self name)
  ∧ never_raises (update_one_pager_record_atomic self record_id expected_status)
  ∧ never_raises (delete_one_pager_record self record_id).
Proof.
  repeat split.
  - unfold create_one_pager_record. run_method.
  - unfold update_one_pager_record. run_method.
  - unfold get_one_pager_record. run_method.
  - unfold get_one_pager_records_by_company. run_method.
  - unfold get_recent_one_pager_records. run_method.
  - unfold get_one_pager_record_by_request_id. run_method.
  - unfold get_in_progress_records_by_company. run_method.
  - unfold get_recent_request_by_company. run_method.
  - unfold update_one_pager_record_atomic. destruct expected_status; run_method.
  - unfold delete_one_pager_record. run_method.
Qed.

Ltac client_raised Hq :=
  unfold raises_on in Hq;
  cbv [try_except mbind M_bind mret M_ret run];
  match type of Hq with
  | execute ?c ?q ?s = _ =>
      match goal with
      | |- context [execute c ?q' s] => change q' with q
      end
  end;
  rewrite Hq; reflexivity.

(** C5: the constructor raises exactly when the endpoint or the credential
    is missing (unset or empty) or the client cannot be built; each of the
    ten methods ends with a value from every state, whatever the client
    answers or raises and whatever the model rejects; and whenever the
    client raises on the request a method sends, whatever it does with any
    other request, that method answers its failure indicator ([None] for a
    single-record method, the empty list for a list method, [False] for
    [delete]) and the store is left as the failed request left it. *)
Theorem only_init_raises (environ : gmap string string) self r record_id
    expected_status name limit d w :
  ((∃ e, DatabaseService_init (St := St) environ = inl e)
   ↔ missing (environ !! "SUPABASE_URL")
     ∨ missing (environ !! "SUPABASE_ANON_KEY")
     ∨ ∃ e, create_client (default "" (environ !! "SUPABASE_URL"))
                          (default "" (environ !! "SUPABASE_ANON_KEY")) = inl e)
  ∧ (never_raises (create_one_pager_record self r)
     ∧ never_raises (update_one_pager_record self record_id)
     ∧ never_raises (get_one_pager_record self record_id)
     ∧ never_raises (get_one_pager_records_by_company self name)
     ∧ never_raises (get_recent_one_pager_records self limit)
     ∧ never_raises (get_one_pager_record_by_request_id self name)
     ∧ never_raises (get_in_progress_records_by_company self name)
     ∧ never_raises (get_recent_request_by_company self name)
     ∧ never_raises (update_one_pager_record_atomic self record_id expected_status)
     ∧ never_raises (delete_one_pager_record self record_id))
  ∧ (∀ e s,
       let now := isoformat (ticks w) in
       let sent := update_payload d now in
       (raises_on (client self) (insert_query (created_row r now)) w e s →
        create_one_pager_record self r w = (inr None, World (S (ticks w)) s))
       ∧ (raises_on (client self) (update_query record_id None sent) w e s →
          update_one_pager_record self record_id (d, w)
          = (inr None, (sent, World (S (ticks w)) s)))
       ∧ (raises_on (client self) (select_query record_id) w e s →
          get_one_pager_record self record_id w = (inr None, World (ticks w) s))
       ∧ (raises_on (client self) (company_query name) w e s →
          get_one_pager_records_by_company self name w
          = (inr [], World (ticks w) s))
       ∧ (raises_on (client self) (recent_query limit) w e s →
          get_recent_one_pager_records self limit w = (inr [], World (ticks w) s))
       ∧ (raises_on (client self) (request_id_query name) w e s →
          get_one_pager_record_by_request_id self name w
          = (inr None, World (ticks w) s))
       ∧ (raises_on (client self) (in_progress_query name) w e s →
          get_in_progress_records_by_company self name w
          = (inr [], World (ticks w) s))
       ∧ (raises_on (client self) (recent_request_query name) w e s →
          get_recent_request_by_company self name w
          = (inr None, World (ticks w) s))
       ∧ (raises_on (client self) (update_query record_id expected_status sent) w e s →
          update_one_pager_record_atomic self record_id expected_status (d, w)
          = (inr None, (sent, World (S (ticks w)) s)))
       ∧ (raises_on (client self) (delete_query record_id) w e s →
          delete_one_pager_record self record_id w
          = (inr false, World (ticks w) s))).
Proof.
  split; [apply init_raises_iff|].
  split; [apply methods_never_raise|].
  intros e s now sent. subst now sent.
  split; [|split; [|split; [|split; [|split; [|split; [|split; [|split;
    [|split]]]]]]]]; intros Hq.
  - rewrite create_unfold. unfold raises_on in Hq. by rewrite Hq.
  - rewrite update_unfold. unfold raises_on in Hq. cbv zeta. by rewrite Hq.
  - rewrite get_unfold. unfold raises_on in Hq. by rewrite Hq.
  - unfold get_one_pager_records_by_company. client_raised Hq.
  - unfold get_recent_one_pager_records. client_raised Hq.
  - unfold get_one_pager_record_by_request_id. client_raised Hq.
  - unfold get_in_progress_records_by_company. client_raised Hq.
  - unfold get_recent_request_by_company. client_raised Hq.
  - rewrite update_atomic_unfold. unfold raises_on in Hq. cbv zeta.
    by rewrite Hq.
  - unfold delete_one_pager_record. client_raised Hq.
Qed.
End Raising.

(** C5, concrete runs: with no environment the constructor raises.  Against
    a store that refuses writes and answers reads, [get] still answers the
    sample record, while [create] answers [None] and [delete] answers
    [False], the table left as it was.  Against a client whose every request
    fails the list of recent records is empty. *)
Lemma only_init_raises_witness :
  (∃ e, DatabaseService_init (tc := mem_client) ∅ = inl e)
  ∧ (∃ x, get_one_pager_record (tc := read_only_client) sample_service 1
            sample_world = (inr (Some x), sample_world))
  ∧ create_one_pager_record (clock := sample_clock) (tc := read_only_client)
      sample_service sample_record sample_world
    = (inr None, World (S (ticks sample_world)) (remote sample_world))
  ∧ delete_one_pager_record (tc := read_only_client) sample_service 1
      sample_world
    = (inr false, sample_world)
  ∧ get_recent_one_pager_records (tc := failing_client)
      {| supabase_url := Some "https://db.example";
         supabase_key := Some "anon-key"; client := tt |} 100 (World 0 tt)
    = (inr [], World 0 tt).
Proof.
  split.
  { apply (only_init_raises (clock := sample_clock) (tc := mem_client) ∅
             sample_service sample_record 1 None "Acme" 100 ∅ empty_world).
    left. by left. }
  split; [eexists; reflexivity|].
  destruct (only_init_raises (clock := sample_clock) (tc := read_only_client) ∅
              sample_service sample_record 1 None "Acme" 100 ∅ sample_world)
    as (_ & _ & Hstore).
  destruct (Hstore (Raised "APIError"
                      "permission denied for table one_pager_reports")
                   (remote sample_world))
    as (Hcreate & _ & _ & _ & _ & _ & _ & _ & _ & Hdelete).
  split; [apply Hcreate; reflexivity|].
  split; [exact (Hdelete eq_refl)|].
  destruct (only_init_raises (clock := sample_clock) (tc := failing_client) ∅
              {| supabase_url := Some "https://db.example";
                 supabase_key := Some "anon-key"; client := tt |}
              sample_record 1 None "Acme" 100 ∅ (World 0 tt))
    as (_ & _ & Hclient).
  destruct (Hclient (Raised "ConnectionError" "timed out") tt)
    as (_ & _ & _ & _ & Hrecent & _).
  exact (Hrecent eq_refl).
Defined.

(** ** Reading rows of every shape *)

(** C9, as stated, fails: a row whose [excel_blob_info] column holds a JSON
    string gets both keys set to null, but the model constructor rejects the
    row, so [_extract_record_from_db] raises instead of returning a record.
    The same row with the column as created is read back. *)
Lemma extract_rejects_text_info :
  dict_get text_info_row "excel_blob_info" = JStr "n/a"
  ∧ _extract_excel_fields text_info_row !! "excel_blob_url" = Some JNull
  ∧ _extract_excel_fields text_info_row !! "excel_blob_path" = Some JNull
  ∧ _extract_record_from_db text_info_row = inl (ValidationError "excel_blob_info")
  ∧ (¬ ∃ x, _extract_record_from_db text_info_row = inr x)
  ∧ ∃ x, _extract_record_from_db sample_row = inr x.
Proof.
  assert (_extract_record_from_db text_info_row
          = inl (ValidationError "excel_blob_info")) as Hraise by reflexivity.
  split; [reflexivity|]. split; [reflexivity|]. split; [reflexivity|].
  split; [exact Hraise|]. split.
  - intros [x Hx]. rewrite Hraise in Hx. discriminate Hx.
  - eexists. reflexivity.
Qed.

Lemma nulled_reads_as_absent (d : gmap string json) :
  OnePagerRecord_init (<["excel_blob_path" := JNull]> (<["excel_blob_url" := JNull]> d))
  = OnePagerRecord_init (delete "excel_blob_path" (delete "excel_blob_url" d)).
Proof.
  apply init_alike. unfold field_names.
  repeat (apply List.Forall_cons;
          [ first [ left;
                    rewrite !lookup_insert_ne, !lookup_delete_ne by done;
                    reflexivity
                  | right; split;
                    [ first [by left | by right]
                    | split;
                      [ by simplify_map_eq
                      | first [ by rewrite lookup_delete_eq
                              | by rewrite lookup_delete_ne, lookup_delete_eq ] ] ] ]
          | ]).
  apply List.Forall_nil.
Qed.

Lemma absent_pair_reads_none (d : gmap string json) (x : OnePagerRecord) :
  OnePagerRecord_init (delete "excel_blob_path" (delete "excel_blob_url" d)) = inr x →
  excel_blob_url x = None ∧ excel_blob_path x = None.
Proof.
  intros (_ & _ & Hurl & Hpath & _)%init_inr.
  unfold defaulted in Hurl, Hpath.
  rewrite lookup_delete_ne, lookup_delete_eq in Hurl by done.
  rewrite lookup_delete_eq in Hpath.
  split; [by injection Hurl|by injection Hpath].
Qed.

Lemma falsy_info_cases (d : gmap string json) :
  d !! "excel_blob_info" = None
  ∨ d !! "excel_blob_info" = Some JNull
  ∨ d !! "excel_blob_info" = Some (JObj ∅) →
  py_truthy (dict_get d "excel_blob_info")
    && isinstance_dict (dict_get d "excel_blob_info") = false.
Proof. unfold dict_get. by intros [-> | [-> | ->]]. Qed.

(** C9 (amended): the assignment of the two keys never fails: when the
    [excel_blob_info] column is falsy or not an object, both keys are set to
    null.  When the column is null, absent or the empty object, the row is
    read back as a record, with both fields [None], whenever the row without
    the two top-level keys is accepted by the model.  When the column is a
    non-empty object that lacks one of the two keys, that key is set to null
    and any record read back has [None] in that field.  When the column
    holds any other non-null value, the model rejects the row and
    [_extract_record_from_db] raises. *)
Theorem extract_excel_pair_shapes (d : gmap string json) :
  let info := dict_get d "excel_blob_info" in
  (py_truthy info && isinstance_dict info = false →
     _extract_excel_fields d !! "excel_blob_url" = Some JNull
     ∧ _extract_excel_fields d !! "excel_blob_path" = Some JNull)
  ∧ (d !! "excel_blob_info" = None
     ∨ d !! "excel_blob_info" = Some JNull
     ∨ d !! "excel_blob_info" = Some (JObj ∅) →
     ∀ x, OnePagerRecord_init
            (delete "excel_blob_path" (delete "excel_blob_url" d)) = inr x →
          _extract_record_from_db d = inr x
          ∧ excel_blob_url x = None ∧ excel_blob_path x = None)
  ∧ (∀ m, d !! "excel_blob_info" = Some (JObj m) → m ≠ ∅ →
       (m !! "excel_blob_url" = None →
          _extract_excel_fields d !! "excel_blob_url" = Some JNull
          ∧ ∀ x, _extract_record_from_db d = inr x → excel_blob_url x = None)
       ∧ (m !! "excel_blob_path" = None →
          _extract_excel_fields d !! "excel_blob_path" = Some JNull
          ∧ ∀ x, _extract_record_from_db d = inr x → excel_blob_path x = None))
  ∧ (∀ v, d !! "excel_blob_info" = Some v → v ≠ JNull →
          isinstance_dict v = false →
          ∃ e, _extract_record_from_db d = inl e).
Proof.
  intros info. split; [|split; [|split]].
  - intros Hinfo. rewrite (extract_fields_nulled d Hinfo).
    split; by simplify_map_eq.
  - intros Hcase x Hx. unfold _extract_record_from_db.
    rewrite (extract_fields_nulled d (falsy_info_cases d Hcase)).
    rewrite nulled_reads_as_absent.
    split; [exact Hx|by apply (absent_pair_reads_none d)].
  - intros m Hm Hne.
    pose proof (extract_fields_unpacked d m Hm Hne) as Hfields.
    assert (_extract_excel_fields d !! "excel_blob_url"
            = Some (dict_get m "excel_blob_url")) as Hu
      by (rewrite Hfields; by simplify_map_eq).
    assert (_extract_excel_fields d !! "excel_blob_path"
            = Some (dict_get m "excel_blob_path")) as Hp
      by (rewrite Hfields; by simplify_map_eq).
    split; intros Hmiss; unfold dict_get in Hu, Hp; rewrite Hmiss in *;
      (split; [done|]); intros x Hx; apply dump_null;
      by destruct (read_back_excel_pair _ _ _ x Hu Hp Hx).
  - intros v Hv Hnull Hdict.
    assert (py_truthy info && isinstance_dict info = false) as Hinfo
      by (unfold info, dict_get; rewrite Hv; cbn; by rewrite Hdict, andb_false_r).
    unfold _extract_record_from_db. rewrite (extract_fields_nulled d Hinfo).
    apply (init_excel_blob_info_raises _ (ValidationError "excel_blob_info")).
    unfold defaulted. rewrite !lookup_insert_ne, Hv by done.
    by destruct v.
Qed.

(** C9, a concrete run: the sample row with its [excel_blob_info] column
    removed is read back as a record without a pair. *)
Lemma extract_excel_pair_shapes_witness :
  let d := delete "excel_blob_info" sample_row in
  d !! "excel_blob_info" = None
  ∧ ∃ x, _extract_record_from_db d = inr x
         ∧ excel_blob_url x = None ∧ excel_blob_path x = None.
Proof.
  intros d.
  assert (Habsent : d !! "excel_blob_info" = None) by reflexivity.
  split; [exact Habsent|].
  destruct (extract_excel_pair_shapes d) as (_ & Hread & _).
  eexists. apply Hread; [by left|reflexivity].
Defined.

(** * Further properties *)

(** ** The dict an update method leaves behind *)

Section CallerDict.
Context {clock : Clock} {C St : Type} {tc : TableClient C St}.
Implicit Types (self : DatabaseService C) (w : world St).

Lemma update_atomic_leaves self record_id expected_status d w :
  (update_one_pager_record_atomic self record_id expected_status (d, w)).2.1
  = update_payload d (isoformat (ticks w)).
Proof.
  rewrite update_atomic_unfold. cbn zeta. unfold answer_of.
  by destruct (execute _ _ _) as [[e|result] s].
Qed.

Lemma update_leaves self record_id d w :
  (update_one_pager_record self record_id (d, w)).2.1
  = update_payload d (isoformat (ticks w)).
Proof. apply (update_atomic_leaves self record_id None). Qed.

(** X1: whatever the client answers or raises, both update methods hand the
    caller's dict back changed: the keys [excel_blob_url] and
    [excel_blob_path] are gone, so subscripting them raises [KeyError];
    [excel_blob_info] and [updated_at] are present; every other key holds
    what it held before. *)
Theorem update_mutates_caller_dict self record_id expected_status d w :
  let left_by_update := (update_one_pager_record self record_id (d, w)).2.1 in
  let left_by_atomic :=
    (update_one_pager_record_atomic self record_id expected_status (d, w)).2.1 in
  left_by_atomic = left_by_update
  ∧ dict_getitem left_by_update "excel_blob_url" = inl (KeyError "excel_blob_url")
  ∧ dict_getitem left_by_update "excel_blob_path" = inl (KeyError "excel_blob_path")
  ∧ is_Some (left_by_update !! "excel_blob_info")
  ∧ left_by_update !! "updated_at" = Some (JStr (isoformat (ticks w)))
  ∧ ∀ k, k ≠ "excel_blob_url" → k ≠ "excel_blob_path" →
         k ≠ "excel_blob_info" → k ≠ "updated_at" →
         left_by_update !! k = d !! k.
Proof.
  intros left_by_update left_by_atomic. unfold left_by_update, left_by_atomic.
  rewrite update_atomic_leaves, update_leaves.
  split; [done|]. unfold dict_getitem, update_payload.
  split; [by rewrite !lookup_insert_ne, lookup_delete_ne, lookup_delete_eq|].
  split; [by rewrite !lookup_insert_ne, lookup_delete_eq|].
  split; [rewrite lookup_insert_ne, lookup_insert_eq by done; by eexists|].
  split; [by rewrite lookup_insert_eq|].
  intros k ? ? ? ?. by rewrite !lookup_insert_ne, !lookup_delete_ne.
Qed.

(** X2: an update that is handed the dict a previous update left behind
    sends [excel_blob_info] as null, whatever pair the dict held at first:
    the pair was popped by the first call. *)
Theorem reused_dict_sends_null_pair self id1 id2 st1 st2 d w1 w2 :
  let d1 := (update_one_pager_record_atomic self id1 st1 (d, w1)).2.1 in
  let d2 := (update_one_pager_record_atomic self id2 st2 (d1, w2)).2.1 in
  d2 !! "excel_blob_info" = Some JNull
  ∧ (update_one_pager_record self id2 (d1, w2)).2.1 = d2
  ∧ update_one_pager_record_atomic self id2 st2 (d1, w2)
    = answer_of (execute (client self) (update_query id2 st2 d2) (remote w2))
                (λ s, (d2, World (S (ticks w2)) s)).
Proof.
  intros d1 d2.
  assert (d2 = update_payload d1 (isoformat (ticks w2))) as Hd2
    by apply update_atomic_leaves.
  assert (d1 = update_payload d (isoformat (ticks w1))) as Hd1
    by apply update_atomic_leaves.
  split; [|split].
  - rewrite Hd2, lookup_update_payload_info, Hd1.
    unfold dict_get, update_payload, excel_pack.
    rewrite !lookup_insert_ne, lookup_delete_eq by done.
    by rewrite lookup_delete_ne, lookup_delete_eq.
  - by rewrite update_leaves, Hd2.
  - rewrite update_atomic_unfold. cbn zeta. by rewrite <- Hd2.
Qed.
End CallerDict.

(** ** Deletion *)

Lemma filter_nil_not_hit (hit : gmap string json → bool) (l : list (gmap string json)) :
  filter (λ r, hit r) l = [] ↔ ∀ r, r ∈ l → hit r = false.
Proof.
  split.
  - intros Hnil r Hr. destruct (hit r) eqn:Hhit; [|done].
    assert (r ∈ filter (λ r, hit r) l) as Hin
      by (apply list_elem_of_filter; split; [by apply Is_true_true|done]).
    rewrite Hnil in Hin. by apply not_elem_of_nil in Hin.
  - intros Hall. induction l as [|r l IH]; [done|].
    rewrite list.filter_cons_False.
    + apply IH. intros r' Hr'. apply Hall. by apply list_elem_of_further.
    + intros Hp%Is_true_true. rewrite Hall in Hp; [done|apply list_elem_of_here].
Qed.

Lemma filter_not_hit_id (hit : gmap string json → bool) (l : list (gmap string json)) :
  (∀ r, r ∈ l → hit r = false) → filter (λ r, negb (hit r)) l = l.
Proof.
  induction l as [|r l IH]; [done|]. intros Hall.
  rewrite list.filter_cons_True
    by (rewrite Hall; [done|apply list_elem_of_here]).
  rewrite IH; [done|]. intros r' Hr'. apply Hall. by apply list_elem_of_further.
Qed.

Lemma filter_hit_not_hit (hit : gmap string json → bool) (l : list (gmap string json)) :
  filter (λ r, hit r) (filter (λ r, negb (hit r)) l) = [].
Proof.
  apply filter_nil_not_hit. intros r [Hr _]%list_elem_of_filter.
  by destruct (hit r).
Qed.

Section Delete.
Context {clock : Clock}.
Implicit Types (self : DatabaseService (string * string)) (w : world table_state).

Lemma delete_mem self record_id w :
  delete_one_pager_record self record_id w =
    let hit r := passes [("id", JInt record_id)] r in
    (inr (match filter (λ r, hit r) (rows (remote w)) with
          | _ :: _ => true
          | [] => false
          end),
     World (ticks w)
           (TableState (filter (λ r, negb (hit r)) (rows (remote w)))
                       (next_id (remote w)))).
Proof.
  unfold delete_one_pager_record, try_except, mbind, M_bind, run, table, q_eq.
  cbn. by destruct (filter _ _).
Qed.

(** X3: [delete] answers [True] exactly when some row has the id.  It removes
    every row with that id and no other row, keeps the order of the rest,
    and hands out no id again; a [get] on the id afterwards answers "no
    result".  When no row has the id it answers [False] and the table is as
    it was. *)
Theorem delete_then_get self record_id w :
  let out := delete_one_pager_record self record_id w in
  let has_id (r : gmap string json) := r !! "id" = Some (JInt record_id) in
  (out.1 = inr true ↔ ∃ r, r ∈ rows (remote w) ∧ has_id r)
  ∧ (out.1 = inr false ↔ ∀ r, r ∈ rows (remote w) → ¬ has_id r)
  ∧ (∀ r, r ∈ rows (remote out.2) ↔ r ∈ rows (remote w) ∧ ¬ has_id r)
  ∧ rows (remote out.2) `sublist_of` rows (remote w)
  ∧ next_id (remote out.2) = next_id (remote w)
  ∧ get_one_pager_record self record_id out.2 = (inr None, out.2)
  ∧ (out.1 = inr false → out.2 = w).
Proof.
  intros out has_id. unfold out. rewrite delete_mem. cbn zeta.
  cbn [fst snd remote rows next_id].
  set (hit := λ r : gmap string json, passes [("id", JInt record_id)] r).
  assert (∀ r, hit r = true ↔ has_id r) as Hhit by (intros r; apply passes_id).
  assert (∀ r, hit r = false ↔ ¬ has_id r) as Hmiss.
  { intros r. rewrite <- Hhit. by destruct (hit r). }
  assert (filter (λ r, hit r) (rows (remote w)) = []
          ↔ ∀ r, r ∈ rows (remote w) → ¬ has_id r) as Hnone.
  { rewrite filter_nil_not_hit. by setoid_rewrite Hmiss. }
  split; [|split; [|split; [|split; [|split; [|split]]]]].
  - destruct (filter (λ r, hit r) (rows (remote w))) as [|r rest] eqn:Hf.
    + split; [done|]. intros (r & Hr & Hid).
      destruct Hnone as [Hnone _]. by destruct (Hnone eq_refl r Hr).
    + split; [intros _|done]. exists r.
      assert (r ∈ filter (λ r, hit r) (rows (remote w))) as Hin
        by (rewrite Hf; apply list_elem_of_here).
      apply list_elem_of_filter in Hin as [Hp%Is_true_true Hin].
      split; [done|by apply Hhit].
  - rewrite <- Hnone. by destruct (filter (λ r, hit r) (rows (remote w))).
  - intros r. rewrite list_elem_of_filter, <- Hmiss.
    split; intros [? ?]; (split; [|]); try done; by destruct (hit r).
  - apply sublist_filter.
  - done.
  - rewrite get_mem. cbn [remote rows]. unfold hit.
    by rewrite (filter_hit_not_hit (λ r, passes [("id", JInt record_id)] r)).
  - intros Hfalse.
    assert (filter (λ r, hit r) (rows (remote w)) = []) as Hf
      by (by destruct (filter (λ r, hit r) (rows (remote w)))).
    rewrite filter_not_hit_id by (by apply filter_nil_not_hit).
    by destruct w as [t [l n]].
Qed.
End Delete.

(** X3, a concrete run: deleting the sample row succeeds, a second delete
    finds nothing. *)
Lemma delete_then_get_witness :
  let out1 := delete_one_pager_record sample_service 1
                sample_world in
  let out2 := delete_one_pager_record sample_service 1
                out1.2 in
  out1.1 = inr true ∧ rows (remote out1.2) = []
  ∧ out2.1 = inr false ∧ out2.2 = out1.2.
Proof.
  intros out1 out2.
  assert (Hrows : rows (remote sample_world) = [sample_row]) by reflexivity.
  assert (Hout1 : rows (remote out1.2) = []) by reflexivity.
  destruct (delete_then_get sample_service 1 sample_world)
    as (Htrue & _ & _ & _ & _ & _ & _).
  destruct (delete_then_get sample_service 1 out1.2)
    as (_ & Hfalse & _ & _ & _ & _ & Hsame).
  fold out1 in Htrue. fold out2 in Hfalse, Hsame.
  assert (out2.1 = inr false) as H2.
  { apply Hfalse. rewrite Hout1. intros r Hr. destruct (not_elem_of_nil r Hr). }
  split.
  { apply Htrue. exists sample_row. rewrite Hrows.
    split; [apply list_elem_of_here|reflexivity]. }
  split; [exact Hout1|]. split; [exact H2|exact (Hsame H2)].
Defined.

(** ** The read methods *)

Lemma list_comprehension_accepted (result : list (gmap string json))
    (l : list OnePagerRecord) :
  Forall2 (λ row x, _extract_record_from_db row = inr x) result l →
  list_comprehension _extract_record_from_db result = inr l.
Proof.
  induction 1 as [|row x result l Hrow _ IH]; [done|].
  cbn. rewrite Hrow. cbn. by rewrite IH.
Qed.

Lemma all_records_accepted (result : list (gmap string json)) (l : list OnePagerRecord) :
  Forall2 (λ row x, _extract_record_from_db row = inr x) result l →
  all_records result = l.
Proof.
  intros Hall. unfold all_records. by rewrite (list_comprehension_accepted _ l).
Qed.

Lemma list_comprehension_rejected (result : list (gmap string json)) row e :
  row ∈ result → _extract_record_from_db row = inl e →
  ∃ e', list_comprehension _extract_record_from_db result = inl e'.
Proof.
  intros Hin Hrow.
  induction result as [|row' result IH]; [by apply not_elem_of_nil in Hin|].
  cbn [list_comprehension]. apply elem_of_cons in Hin as [<-|Hin].
  - rewrite Hrow. by eexists.
  - destruct (_extract_record_from_db row') as [e'|x]; [by eexists|].
    cbn [vbind]. destruct (IH Hin) as [e' ->]. by eexists.
Qed.

Lemma all_records_rejected (result : list (gmap string json)) row e :
  row ∈ result → _extract_record_from_db row = inl e → all_records result = [].
Proof.
  intros Hin Hrow. unfold all_records.
  by destruct (list_comprehension_rejected result row e Hin Hrow) as [e' ->].
Qed.

Lemma list_comprehension_inr (result : list (gmap string json))
    (l : list OnePagerRecord) :
  list_comprehension _extract_record_from_db result = inr l →
  Forall2 (λ row x, _extract_record_from_db row = inr x) result l.
Proof.
  revert l. induction result as [|row result IH]; intros l.
  - cbn. intros [= <-]. constructor.
  - cbn [list_comprehension].
    destruct (_extract_record_from_db row) as [e|x] eqn:Hrow; [done|].
    cbn [vbind].
    destruct (list_comprehension _extract_record_from_db result) as [e|l'];
      [done|].
    cbn [vbind]. intros [= <-]. constructor; [done|by apply IH].
Qed.

Lemma elem_of_all_records (result : list (gmap string json)) (x : OnePagerRecord) :
  x ∈ all_records result →
  ∃ row, row ∈ result ∧ _extract_record_from_db row = inr x.
Proof.
  unfold all_records.
  destruct (list_comprehension _extract_record_from_db result) as [e|l] eqn:Hl.
  { intros Hx. by apply not_elem_of_nil in Hx. }
  apply list_comprehension_inr in Hl. intros Hx.
  apply list_elem_of_lookup in Hx as [i Hi].
  destruct (Forall2_lookup_r _ _ _ _ _ Hl Hi) as (row & Hrow & Hx).
  exists row. split; [by eapply list_elem_of_lookup_2|done].
Qed.

Section ReadAny.
Context {C St : Type} {tc : TableClient C St}.
Implicit Types (self : DatabaseService C) (w : world St).

Ltac unfold_list_method :=
  unfold try_except, mbind, M_bind, run, table, q_eq, q_order_by, q_limit_to,
    answer_all, all_records, lift_exn, mret, M_ret;
  cbn;
  destruct (execute _ _ _) as [[e|result] s]; cbn; [done|];
  by destruct (list_comprehension _extract_record_from_db result).

Lemma by_company_unfold self name w :
  get_one_pager_records_by_company self name w
  = answer_all (execute (client self) (company_query name) (remote w))
               (World (ticks w)).
Proof. unfold get_one_pager_records_by_company, company_query. unfold_list_method. Qed.

Lemma in_progress_unfold self name w :
  get_in_progress_records_by_company self name w
  = answer_all (execute (client self) (in_progress_query name) (remote w))
               (World (ticks w)).
Proof.
  unfold get_in_progress_records_by_company, in_progress_query.
  unfold_list_method.
Qed.

Lemma recent_unfold self limit w :
  get_recent_one_pager_records self limit w
  = answer_all (execute (client self) (recent_query limit) (remote w))
               (World (ticks w)).
Proof. unfold get_recent_one_pager_records, recent_query. unfold_list_method. Qed.

Lemma by_request_id_unfold self request_id w :
  get_one_pager_record_by_request_id self request_id w
  = answer_of (execute (client self) (request_id_query request_id) (remote w))
              (World (ticks w)).
Proof.
  unfold get_one_pager_record_by_request_id, try_except, mbind, M_bind, run,
    table, q_eq, answer_of, request_id_query. cbn.
  destruct (execute _ _ _) as [[e|[|row result]] s]; cbn; try done.
  unfold lift_exn, mret, M_ret. by destruct (_extract_record_from_db row).
Qed.

Lemma recent_request_unfold self name w :
  get_recent_request_by_company self name w
  = answer_of (execute (client self) (recent_request_query name) (remote w))
              (World (ticks w)).
Proof.
  unfold get_recent_request_by_company, try_except, mbind, M_bind, run,
    table, q_eq, q_order_by, q_limit_to, answer_of, recent_request_query. cbn.
  destruct (execute _ _ _) as [[e|[|row result]] s]; cbn; try done.
  unfold lift_exn, mret, M_ret. by destruct (_extract_record_from_db row).
Qed.

(** X4: the three list methods are all-or-nothing.  When the client answers
    rows, the method answers one record per row, in the order of the rows,
    if the model accepts every row; if the model rejects a single row, the
    method answers the empty list, as it does when there is no row or when
    the client raises. *)
Theorem list_methods_all_or_nothing self name limit w method q result s :
  (method, q) ∈ [(get_one_pager_records_by_company self name, company_query name);
                 (get_in_progress_records_by_company self name,
                  in_progress_query name);
                 (get_recent_one_pager_records self limit, recent_query limit)] →
  execute (client self) q (remote w) = (inr result, s) →
  method w = (inr (all_records result), World (ticks w) s)
  ∧ (∀ l, Forall2 (λ row x, _extract_record_from_db row = inr x) result l →
          (method w).1 = inr l)
  ∧ (∀ row e, row ∈ result → _extract_record_from_db row = inl e →
              (method w).1 = inr []).
Proof.
  intros Hm Hq.
  assert (method w = (inr (all_records result), World (ticks w) s)) as Hanswer.
  { repeat (apply elem_of_cons in Hm as [[= -> ->]|Hm]).
    - by rewrite by_company_unfold, Hq.
    - by rewrite in_progress_unfold, Hq.
    - by rewrite recent_unfold, Hq.
    - by apply not_elem_of_nil in Hm. }
  split; [exact Hanswer|]. rewrite Hanswer. cbn [fst].
  split.
  - intros l Hl. by rewrite (all_records_accepted _ l).
  - intros row e Hin Hrow. by rewrite (all_records_rejected _ row e).
Qed.
End ReadAny.

(** X4, a concrete run: the table holds the sample row and a row the model
    rejects; the list for the company is empty, although the sample row
    alone is read back. *)
Lemma list_methods_all_or_nothing_witness :
  (get_one_pager_records_by_company sample_service "Acme" mixed_world).1 = inr []
  ∧ List.length (all_records [sample_row]) = 1%nat.
Proof.
  split; [|reflexivity].
  assert (execute (client sample_service) (company_query "Acme") (remote mixed_world)
          = (inr (rows (remote mixed_world)), remote mixed_world)) as Hq
    by reflexivity.
  destruct (list_methods_all_or_nothing sample_service "Acme" 100 mixed_world
              (get_one_pager_records_by_company sample_service "Acme")
              (company_query "Acme") _ _ (list_elem_of_here _ _) Hq)
    as (_ & _ & Hrejected).
  apply (Hrejected (<["created_at" := JStr "2024-06-30T00:00:00"]>
                      (<["id" := JInt 2]> text_info_row))
                   (ValidationError "excel_blob_info")).
  - apply list_elem_of_further, list_elem_of_here.
  - reflexivity.
Defined.

(** ** What the reference store answers to the read requests *)

Lemma elem_of_insert_sorted leb (r x : gmap string json) (l : list (gmap string json)) :
  r ∈ insert_sorted leb x l ↔ r = x ∨ r ∈ l.
Proof.
  induction l as [|y l IH]; cbn.
  - rewrite list_elem_of_singleton, elem_of_nil. tauto.
  - destruct (leb x y).
    + by rewrite elem_of_cons.
    + rewrite !elem_of_cons, IH. tauto.
Qed.

Lemma elem_of_ordered o (r : gmap string json) (l : list (gmap string json)) :
  r ∈ ordered o l ↔ r ∈ l.
Proof.
  destruct o as [[column desc]|]; [|done]. cbn.
  induction l as [|x l IH]; [done|].
  cbn [foldr]. by rewrite elem_of_insert_sorted, IH, elem_of_cons.
Qed.

Lemma elem_of_limited n (r : gmap string json) (l : list (gmap string json)) :
  r ∈ limited n l → r ∈ l.
Proof.
  destruct n as [n|]; [|done]. cbn. intros Hr.
  eapply elem_of_sublist; [exact Hr|apply sublist_take].
Qed.

Lemma passes_filter (filters : list (string * json)) (row : gmap string json)
    (column : string) (value : json) :
  passes filters row = true → (column, value) ∈ filters →
  ∃ x, row !! column = Some x ∧ scalar_eqb x value = true.
Proof.
  unfold passes. rewrite forallb_forall. intros Hall Hin.
  specialize (Hall (column, value)). cbn in Hall.
  destruct (row !! column) as [x|]; [|by discriminate Hall; apply list_elem_of_In].
  exists x. split; [done|]. apply Hall. by apply list_elem_of_In.
Qed.

Lemma passes_str (filters : list (string * json)) (row : gmap string json)
    (column value : string) :
  passes filters row = true → (column, JStr value) ∈ filters →
  row !! column = Some (JStr value).
Proof.
  intros Hp Hin. destruct (passes_filter _ _ _ _ Hp Hin) as (x & -> & Hx).
  destruct x; try done. cbn in Hx. by apply String.eqb_eq in Hx as ->.
Qed.

Lemma select_mem (c : string * string) (q : query) (s : table_state)
    (row : gmap string json) result s' :
  q_table q = "one_pager_reports" → (∃ columns, q_verb q = Select columns) →
  execute c q s = (inr result, s') → row ∈ result →
  s' = s ∧ row ∈ rows s ∧ passes (q_filters q) row = true.
Proof.
  intros Ht [columns Hv] Hq Hrow. cbn in Hq. unfold mem_execute in Hq.
  rewrite Ht, Hv in Hq. cbn in Hq. injection Hq as <- <-.
  apply elem_of_limited, elem_of_ordered in Hrow.
  apply list_elem_of_filter in Hrow as [Hp%Is_true_true Hrow]. done.
Qed.

Lemma extract_fields_other (d : gmap string json) (k : string) :
  k ≠ "excel_blob_url" → k ≠ "excel_blob_path" →
  _extract_excel_fields d !! k = d !! k.
Proof.
  intros ? ?. unfold _extract_excel_fields.
  destruct (_ && _); by rewrite !lookup_insert_ne.
Qed.

Lemma init_inr_subject d x :
  OnePagerRecord_init d = inr x →
  required d "request_id" = inr (request_id x)
  ∧ required d "company_name" = inr (company_name x).
Proof.
  unfold OnePagerRecord_init. intros H.
  do 34 (field_of H).
  injection H as <-. cbn. done.
Qed.

Lemma required_str (d : gmap string json) (k s v : string) :
  d !! k = Some (JStr v) → required d k = inr s → s = v.
Proof. unfold required. intros ->. cbn. by intros [= ->]. Qed.

Lemma read_back_subject (row : gmap string json) (x : OnePagerRecord) :
  _extract_record_from_db row = inr x →
  (∀ v, row !! "request_id" = Some (JStr v) → request_id x = v)
  ∧ (∀ v, row !! "company_name" = Some (JStr v) → company_name x = v)
  ∧ (∀ v, row !! "status" = Some (JStr v) → status x = v)
  ∧ (∀ i, row !! "id" = Some (JInt i) → id x = Some i)
  ∧ (∀ v, row !! "updated_at" = Some (JStr v) → updated_at x = Some v).
Proof.
  unfold _extract_record_from_db. intros Hx.
  destruct (init_inr_subject _ _ Hx) as (Hreq & Hcompany).
  destruct (init_inr _ _ Hx) as (Hid & Hstatus & _ & _ & _ & _ & Hupdated).
  repeat split; intros v Hv.
  - eapply required_str; [|exact Hreq]. by rewrite extract_fields_other.
  - eapply required_str; [|exact Hcompany]. by rewrite extract_fields_other.
  - eapply required_str; [|exact Hstatus]. by rewrite extract_fields_other.
  - unfold defaulted in Hid. rewrite extract_fields_other, Hv in Hid by done.
    cbn in Hid. by injection Hid as <-.
  - unfold defaulted in Hupdated.
    rewrite extract_fields_other, Hv in Hupdated by done.
    cbn in Hupdated. by injection Hupdated as <-.
Qed.

Lemma length_all_records (result : list (gmap string json)) :
  (List.length (all_records result) ≤ List.length result)%nat.
Proof.
  unfold all_records.
  destruct (list_comprehension _extract_record_from_db result) as [e|l] eqn:Hl.
  - cbn. lia.
  - apply list_comprehension_inr, Forall2_length in Hl. lia.
Qed.

Section ReadMem.
Implicit Types (self : DatabaseService (string * string)) (w : world table_state).

Lemma list_method_mem self (q : query) w :
  q_table q = "one_pager_reports" → (∃ columns, q_verb q = Select columns) →
  answer_all (execute (client self) q (remote w)) (World (ticks w))
  = (inr (all_records
            (limited (q_limit q)
               (ordered (q_order q)
                  (filter (λ r, passes (q_filters q) r) (rows (remote w)))))),
     w).
Proof.
  intros Ht [columns Hv]. cbn. unfold mem_execute. rewrite Ht, Hv. cbn.
  by destruct w.
Qed.

Lemma single_method_mem self (q : query) w :
  q_table q = "one_pager_reports" → (∃ columns, q_verb q = Select columns) →
  answer_of (execute (client self) q (remote w)) (World (ticks w))
  = (inr (first_record
            (limited (q_limit q)
               (ordered (q_order q)
                  (filter (λ r, passes (q_filters q) r) (rows (remote w)))))),
     w).
Proof.
  intros Ht [columns Hv]. cbn. unfold mem_execute. rewrite Ht, Hv. cbn.
  by destruct w.
Qed.

Lemma answered_row (q : query) (l : list (gmap string json)) (x : OnePagerRecord) :
  first_record (limited (q_limit q) (ordered (q_order q)
                  (filter (λ r, passes (q_filters q) r) l))) = Some x →
  ∃ row, row ∈ l ∧ passes (q_filters q) row = true
         ∧ _extract_record_from_db row = inr x.
Proof.
  unfold first_record.
  destruct (limited _ _) as [|row rest] eqn:Hl; [done|].
  destruct (_extract_record_from_db row) as [e|y] eqn:Hrow; [done|].
  intros [= <-]. exists row.
  assert (row ∈ limited (q_limit q) (ordered (q_order q)
                  (filter (λ r, passes (q_filters q) r) l))) as Hin
    by (rewrite Hl; apply list_elem_of_here).
  apply elem_of_limited, elem_of_ordered in Hin.
  apply list_elem_of_filter in Hin as [Hp%Is_true_true Hin]. done.
Qed.

Lemma listed_row (q : query) (l : list (gmap string json)) (x : OnePagerRecord) :
  x ∈ all_records (limited (q_limit q) (ordered (q_order q)
                     (filter (λ r, passes (q_filters q) r) l))) →
  ∃ row, row ∈ l ∧ passes (q_filters q) row = true
         ∧ _extract_record_from_db row = inr x.
Proof.
  intros (row & Hin & Hrow)%elem_of_all_records. exists row.
  apply elem_of_limited, elem_of_ordered in Hin.
  apply list_elem_of_filter in Hin as [Hp%Is_true_true Hin]. done.
Qed.

(** X5: on the reference store every read method leaves the world as it was
    and answers only records that meet its filter: the lists by company hold
    records of that company, the in-progress list only records whose status
    is in-progress, the lookup by request id a record with that request id,
    [get] a record with that id; the list of recent records is no longer
    than a non-negative limit. *)
Theorem read_methods_honour_filters self name request record_id limit w :
  (get_one_pager_records_by_company self name w).2 = w
  ∧ (get_in_progress_records_by_company self name w).2 = w
  ∧ (get_recent_one_pager_records self limit w).2 = w
  ∧ (get_one_pager_record_by_request_id self request w).2 = w
  ∧ (get_recent_request_by_company self name w).2 = w
  ∧ (get_one_pager_record self record_id w).2 = w
  ∧ (∀ x, x ∈ listed (get_one_pager_records_by_company self name w).1 →
          company_name x = name)
  ∧ (∀ x, x ∈ listed (get_in_progress_records_by_company self name w).1 →
          company_name x = name ∧ status x = "in-progress")
  ∧ (∀ x, answered (get_one_pager_record_by_request_id self request w).1 = Some x →
          request_id x = request)
  ∧ (∀ x, answered (get_recent_request_by_company self name w).1 = Some x →
          company_name x = name)
  ∧ (∀ x, answered (get_one_pager_record self record_id w).1 = Some x →
          id x = Some record_id)
  ∧ (List.length (listed (get_recent_one_pager_records self limit w).1)
     ≤ Z.to_nat limit)%nat.
Proof.
  rewrite by_company_unfold, in_progress_unfold, recent_unfold,
    by_request_id_unfold, recent_request_unfold, get_unfold.
  rewrite !list_method_mem, !single_method_mem by (by eauto).
  cbn [fst snd listed answered].
  do 6 (split; [done|]).
  split; [|split; [|split; [|split; [|split]]]].
  - intros x (row & _ & Hp & Hx)%listed_row.
    eapply read_back_subject; [exact Hx|].
    eapply passes_str; [exact Hp|apply list_elem_of_here].
  - intros x (row & _ & Hp & Hx)%listed_row. split.
    + eapply read_back_subject; [exact Hx|].
      eapply passes_str; [exact Hp|apply list_elem_of_here].
    + eapply read_back_subject; [exact Hx|].
      eapply passes_str; [exact Hp|apply list_elem_of_further, list_elem_of_here].
  - intros x Hx.
    destruct (first_record _) as [y|] eqn:Hy; [|done]. injection Hx as ->.
    apply answered_row in Hy as (row & _ & Hp & Hx).
    eapply read_back_subject; [exact Hx|].
    eapply passes_str; [exact Hp|apply list_elem_of_here].
  - intros x Hx.
    destruct (first_record _) as [y|] eqn:Hy; [|done]. injection Hx as ->.
    apply answered_row in Hy as (row & _ & Hp & Hx).
    eapply read_back_subject; [exact Hx|].
    eapply passes_str; [exact Hp|apply list_elem_of_here].
  - intros x Hx.
    destruct (first_record _) as [y|] eqn:Hy; [|done]. injection Hx as ->.
    apply (answered_row (select_query record_id)) in Hy as (row & _ & Hp & Hx).
    eapply read_back_subject; [exact Hx|]. by apply passes_id.
  - etrans; [apply length_all_records|]. cbn [q_limit recent_query limited].
    rewrite length_take. lia.
Qed.

(** X6: on the reference store, whenever the list for a company is not
    empty, the most recent request of that company is the first record of
    that list. *)
Theorem recent_request_heads_company_list self name w x l :
  (get_one_pager_records_by_company self name w).1 = inr (x :: l) →
  get_recent_request_by_company self name w = (inr (Some x), w).
Proof.
  rewrite by_company_unfold, recent_request_unfold.
  rewrite list_method_mem, single_method_mem by (by eauto).
  cbn [fst q_limit q_order q_filters company_query recent_request_query limited].
  change (Z.to_nat 1) with 1%nat.
  generalize (ordered (Some ("created_at", true))
                (filter (λ r, passes [("company_name", JStr name)] r)
                   (rows (remote w)))).
  intros R [= Hall]. unfold all_records in Hall.
  destruct (list_comprehension _extract_record_from_db R) as [e|l'] eqn:Hl;
    [done|]. subst l'.
  apply list_comprehension_inr in Hl.
  inversion Hl as [|row ? R' ? Hrow _ HR]; subst.
  cbn [take]. unfold first_record. by rewrite Hrow.
Qed.
End ReadMem.

(** X5, a concrete run: the list for the sample company holds one record, of
    that company. *)
Lemma read_methods_honour_filters_witness :
  ∃ x, listed (get_one_pager_records_by_company sample_service "Acme"
                 sample_world).1 = [x]
       ∧ company_name x = "Acme".
Proof.
  destruct (read_methods_honour_filters sample_service "Acme" "r1" 1 100
              sample_world) as (_ & _ & _ & _ & _ & _ & Hcompany & _).
  eexists. split; [reflexivity|].
  apply Hcompany. apply list_elem_of_here.
Defined.

(** X6, a concrete run: in a table that holds two requests of the company,
    the older one first, the list for the company is the later request and
    then the older one, and the most recent request is the later one, not
    the row the table holds first. *)
Lemma recent_request_heads_company_list_witness :
  ∃ x2 x1,
    (get_one_pager_records_by_company sample_service "Acme"
       two_request_world).1 = inr [x2; x1]
    ∧ (request_id x2 = "r2" ∧ created_at x2 = Some "2025-01-01T00:00:01")
    ∧ (request_id x1 = "r1" ∧ created_at x1 = Some "2025-01-01T00:00:00")
    ∧ get_recent_request_by_company sample_service "Acme" two_request_world
      = (inr (Some x2), two_request_world).
Proof.
  eexists _, _. split; [reflexivity|].
  split; [split; reflexivity|]. split; [split; reflexivity|].
  eapply (recent_request_heads_company_list sample_service "Acme"
            two_request_world).
  reflexivity.
Defined.

(** ** The whole record through create and the lookups *)

Lemma persisted_caller_fields (r : OnePagerRecord) (i : Z) (now : string) :
  with_store_fields (persisted r i now) (id r) (created_at r) (updated_at r)
    (excel_blob_url r) (excel_blob_path r) (excel_blob_info r) = r.
Proof.
  unfold persisted. destruct r. by destruct (py_truthy _ || py_truthy _).
Qed.

Lemma created_row_request_id (r : OnePagerRecord) (i : Z) (now : string) :
  (<["id" := JInt i]> (created_row r now)) !! "request_id"
  = Some (JStr (request_id r)).
Proof.
  unfold created_row. rewrite prepare_unfold.
  rewrite !lookup_insert_ne, !lookup_delete_ne by done. lookup_literal.
Qed.

Section WholeRecord.
Context {clock : Clock}.
Implicit Types (self : DatabaseService (string * string)) (w : world table_state).

(** X7: when the next id is not in use, [create] followed by [get] on the
    returned id answers the created record again, and that record agrees
    with the input on every field other than [id], [created_at],
    [updated_at] and the three excel blob fields; its two stamps are the one
    clock reading of the call. *)
Theorem create_then_get_whole_record self r w :
  id_unused (remote w) →
  ∃ created w1 i,
    create_one_pager_record self r w = (inr (Some created), w1)
    ∧ id created = Some i
    ∧ get_one_pager_record self i w1 = (inr (Some created), w1)
    ∧ with_store_fields created (id r) (created_at r) (updated_at r)
        (excel_blob_url r) (excel_blob_path r) (excel_blob_info r) = r
    ∧ created_at created = Some (isoformat (ticks w))
    ∧ updated_at created = Some (isoformat (ticks w)).
Proof.
  intros Hfresh. rewrite create_mem. cbn zeta.
  eexists _, _, (next_id (remote w)). split; [done|].
  destruct (persisted_store_fields r (next_id (remote w)) (isoformat (ticks w)))
    as (Hid & Hcreated & Hupdated).
  split; [exact Hid|]. split.
  - rewrite get_mem. cbn [remote rows].
    rewrite list.filter_app, filter_id_unused by done.
    rewrite list.filter_cons_True
      by (apply Is_true_true, passes_id, lookup_insert_eq).
    cbn. unfold first_record. by rewrite extract_created_row.
  - split; [apply persisted_caller_fields|done].
Qed.

(** X8: when [excel_blob_url] and [excel_blob_path] of the input are each
    unset or the empty string, [create] stores a null [excel_blob_info] and
    answers a record with no pair at all: an empty string in the input is
    read back as null. *)
Theorem create_drops_empty_pair self r w :
  missing (excel_blob_url r) → missing (excel_blob_path r) →
  ∃ created w1,
    create_one_pager_record self r w = (inr (Some created), w1)
    ∧ excel_blob_url created = None
    ∧ excel_blob_path created = None
    ∧ excel_blob_info created = None
    ∧ ∃ row, rows (remote w1) = (rows (remote w) ++ [row])%list
             ∧ row !! "excel_blob_info" = Some JNull.
Proof.
  intros Hurl%missing_falsy Hpath%missing_falsy. rewrite create_mem. cbn zeta.
  eexists _, _. split; [done|].
  unfold persisted. rewrite Hurl, Hpath. cbn [orb].
  do 3 (split; [done|]). eexists. cbn [remote rows]. split; [done|].
  rewrite created_row_info. unfold excel_pack. by rewrite Hurl, Hpath.
Qed.

(** X9: when no row of the table carries the request id of the input, the
    lookup by request id after [create] answers the created record. *)
Theorem create_then_get_by_request_id self r w :
  (∀ row, row ∈ rows (remote w) →
          row !! "request_id" ≠ Some (JStr (request_id r))) →
  ∃ created w1,
    create_one_pager_record self r w = (inr (Some created), w1)
    ∧ get_one_pager_record_by_request_id self (request_id r) w1
      = (inr (Some created), w1)
    ∧ request_id created = request_id r.
Proof.
  intros Hunique. rewrite create_mem. cbn zeta. eexists _, _.
  split; [done|]. split.
  - rewrite by_request_id_unfold, single_method_mem by (by eauto).
    cbn [remote rows q_filters q_order q_limit request_id_query ordered limited].
    rewrite list.filter_app.
    assert (filter (λ r0, passes [("request_id", JStr (request_id r))] r0)
              (rows (remote w)) = []) as ->.
    { apply filter_nil_not_hit. intros row Hrow.
      destruct (passes _ row) eqn:Hp; [|done].
      destruct (Hunique row Hrow).
      eapply passes_str; [exact Hp|apply list_elem_of_here]. }
    rewrite list.filter_cons_True.
    + cbn. unfold first_record. by rewrite extract_created_row.
    + apply Is_true_true. unfold passes. cbn.
      rewrite created_row_request_id. cbn. by rewrite String.eqb_refl.
  - unfold persisted. by destruct (py_truthy _ || py_truthy _).
Qed.
End WholeRecord.

(** X7, a concrete run: the sample record in the empty table. *)
Lemma create_then_get_whole_record_witness :
  ∃ created w1 i,
    create_one_pager_record (clock := sample_clock) sample_service sample_record
      empty_world = (inr (Some created), w1)
    ∧ get_one_pager_record sample_service i w1 = (inr (Some created), w1)
    ∧ pptx_filename created = "acme.pptx".
Proof.
  destruct (create_then_get_whole_record (clock := sample_clock) sample_service
              sample_record empty_world (List.Forall_nil _))
    as (created & w1 & i & Hcreate & Hid & Hget & Hsame & _).
  exists created, w1, i. split; [exact Hcreate|].
  split; [exact Hget|].
  change "acme.pptx" with (pptx_filename sample_record).
  rewrite <- Hsame. reflexivity.
Defined.

(** X8, a concrete run: an empty url and no path. *)
Lemma create_drops_empty_pair_witness :
  let r := with_store_fields sample_record None None None (Some "") None None in
  ∃ created w1,
    create_one_pager_record (clock := sample_clock) sample_service r empty_world
    = (inr (Some created), w1)
    ∧ excel_blob_url created = None.
Proof.
  intros r.
  destruct (create_drops_empty_pair (clock := sample_clock) sample_service r
              empty_world) as (created & w1 & Hcreate & Hurl & _).
  - by right.
  - by left.
  - exists created, w1. split; [exact Hcreate|exact Hurl].
Defined.

(** X9, a concrete run: the sample record is found by its request id. *)
Lemma create_then_get_by_request_id_witness :
  ∃ created w1,
    create_one_pager_record (clock := sample_clock) sample_service sample_record
      empty_world = (inr (Some created), w1)
    ∧ get_one_pager_record_by_request_id sample_service "r1" w1
      = (inr (Some created), w1).
Proof.
  destruct (create_then_get_by_request_id (clock := sample_clock) sample_service
              sample_record empty_world)
    as (created & w1 & Hcreate & Hget & _).
  - intros row Hrow. destruct (not_elem_of_nil row Hrow).
  - exists created, w1. split; [exact Hcreate|exact Hget].
Defined.

(** ** What an update answers *)

Section UpdateAnswer.
Context {clock : Clock}.
Implicit Types (self : DatabaseService (string * string)) (w : world table_state).

(** X10: on the reference store, a record answered by [update_atomic] shows
    the update: its [updated_at] is the clock reading of the call; it has the
    [status] and [company_name] the partial field set supplied; when the
    field set has no [id] key its id is the requested one; when the field
    set has no [status] key and a guard was supplied, its status is still
    the expected one; and its excel pair is the supplied pair when one of
    the two values is truthy, and no pair otherwise. *)
Theorem update_answer_shows_update self record_id expected_status d w x :
  (update_one_pager_record_atomic self record_id expected_status (d, w)).1
    = inr (Some x) →
  updated_at x = Some (isoformat (ticks w))
  ∧ (∀ t, d !! "status" = Some (JStr t) → status x = t)
  ∧ (∀ c, d !! "company_name" = Some (JStr c) → company_name x = c)
  ∧ (d !! "id" = None → id x = Some record_id)
  ∧ (∀ e, expected_status = Some e → d !! "status" = None → status x = e)
  ∧ (py_truthy (dict_get d "excel_blob_url")
       || py_truthy (dict_get d "excel_blob_path") = true →
     dump (excel_blob_url x) = dict_get d "excel_blob_url"
     ∧ dump (excel_blob_path x) = dict_get d "excel_blob_path")
  ∧ (py_truthy (dict_get d "excel_blob_url")
       || py_truthy (dict_get d "excel_blob_path") = false →
     excel_blob_url x = None ∧ excel_blob_path x = None
     ∧ excel_blob_info x = None).
Proof.
  rewrite update_atomic_mem. intros Hx. cbv [fst] in Hx.
  set (payload := update_payload d (isoformat (ticks w))) in *.
  destruct (filter (λ r, passes (guard record_id expected_status) r)
              (rows (remote w))) as [|row rest] eqn:Hf; [done|].
  injection Hx as Hx. cbn [fmap list_fmap first_record] in Hx.
  destruct (_extract_record_from_db (payload ∪ row)) as [e|y] eqn:Hy; [done|].
  injection Hx as ->.
  assert (passes (guard record_id expected_status) row = true) as Hp.
  { assert (row ∈ filter (λ r, passes (guard record_id expected_status) r)
                    (rows (remote w))) as Hin
      by (rewrite Hf; apply list_elem_of_here).
    by apply list_elem_of_filter in Hin as [Hp%Is_true_true _]. }
  destruct (read_back_subject _ _ Hy)
    as (_ & Hcompany & Hstatus & Hid & Hupdated).
  pose proof (holds_pair_intro _ _ _
                (lookup_merged_info d row (isoformat (ticks w)))) as Hpair.
  fold payload in Hpair. unfold holds_pair in Hpair.
  split; [apply Hupdated, lookup_merged_updated_at|].
  split.
  { intros t Ht. apply Hstatus, lookup_union_Some_l.
    unfold payload. by rewrite lookup_update_payload. }
  split.
  { intros c Hc. apply Hcompany, lookup_union_Some_l.
    unfold payload. by rewrite lookup_update_payload. }
  split.
  { intros Hnone. apply Hid. unfold payload.
    rewrite lookup_merged_kept by done.
    destruct (passes_filter _ _ "id" (JInt record_id) Hp) as (v & Hv & Heq);
      [apply list_elem_of_here|].
    rewrite Hv. destruct v; try done. cbn in Heq.
    by apply Z.eqb_eq in Heq as ->. }
  split.
  { intros e -> Hnone. apply Hstatus. unfold payload.
    rewrite lookup_merged_kept by done.
    eapply passes_str; [exact Hp|].
    apply list_elem_of_further, list_elem_of_here. }
  split.
  - intros Htruthy. rewrite Htruthy in Hpair.
    destruct Hpair as (_ & _ & _ & Hback). by apply Hback.
  - intros Hfalsy. rewrite Hfalsy in Hpair.
    destruct Hpair as (_ & _ & _ & Hback). by apply Hback.
Qed.
End UpdateAnswer.

(** X10, a concrete run: the sample row is finished under the guard, with a
    new pair; the answer shows the new status and the new pair. *)
Lemma update_answer_shows_update_witness :
  let d : gmap string json :=
    {[ "status" := JStr "success"; "excel_blob_url" := JStr "u";
       "excel_blob_path" := JStr "p" ]} in
  ∃ x, (update_one_pager_record_atomic (clock := sample_clock) sample_service 1
          (Some "in-progress") (d, sample_world)).1 = inr (Some x)
       ∧ status x = "success"
       ∧ dump (excel_blob_url x) = JStr "u"
       ∧ dump (excel_blob_path x) = JStr "p".
Proof.
  intros d. eexists. split; [reflexivity|].
  match goal with
  | |- status ?x = _ ∧ _ =>
      destruct (update_answer_shows_update (clock := sample_clock) sample_service
                  1 (Some "in-progress") d sample_world x eq_refl)
        as (_ & Hstatus & _ & _ & _ & Hpair & _)
  end.
  split; [by apply Hstatus|]. by apply Hpair.
Defined.

(** ** Reading a row that also has the two top-level keys *)

(** X11: [_extract_record_from_db] takes the pair from [excel_blob_info]
    alone: whatever a row holds under the top-level keys [excel_blob_url]
    and [excel_blob_path] is overwritten before the model sees the row. *)
Theorem extract_ignores_top_level_pair (d : gmap string json) (u p : json) :
  _extract_excel_fields (<["excel_blob_url" := u]> d) = _extract_excel_fields d
  ∧ _extract_excel_fields (<["excel_blob_path" := p]> d) = _extract_excel_fields d
  ∧ _extract_record_from_db (<["excel_blob_url" := u]> (<["excel_blob_path" := p]> d))
    = _extract_record_from_db d
  ∧ is_Some (_extract_excel_fields d !! "excel_blob_url")
  ∧ is_Some (_extract_excel_fields d !! "excel_blob_path").
Proof.
  assert (∀ (v : json) (m : gmap string json),
            _extract_excel_fields (<["excel_blob_url" := v]> m)
            = _extract_excel_fields m) as Hurl.
  { intros v m. unfold _extract_excel_fields, dict_get.
    rewrite !lookup_insert_ne by done.
    destruct (_ && _); by rewrite insert_insert_eq. }
  assert (∀ (v : json) (m : gmap string json),
            _extract_excel_fields (<["excel_blob_path" := v]> m)
            = _extract_excel_fields m) as Hpath.
  { intros v m. unfold _extract_excel_fields, dict_get.
    rewrite !lookup_insert_ne by done.
    destruct (_ && _);
      by rewrite (insert_insert_ne _ "excel_blob_url" "excel_blob_path"),
           insert_insert_eq. }
  split; [apply Hurl|]. split; [apply Hpath|].
  split; [unfold _extract_record_from_db; by rewrite Hurl, Hpath|].
  unfold _extract_excel_fields.
  destruct (_ && _);
    (split; [rewrite lookup_insert_ne, lookup_insert_eq by done
            |rewrite lookup_insert_eq]; by eexists).
Qed.

(** ** The constructor *)

Lemma set_truthy (o : option string) (v : string) :
  o = Some v → v ≠ "" → py_truthy (dump o) = true.
Proof. intros -> Hv. cbn. apply negb_true_iff. by apply String.eqb_neq. Qed.

Lemma truthy_set (o : option string) :
  py_truthy (dump o) = true → ∃ v, o = Some v ∧ v ≠ "".
Proof.
  destruct o as [v|]; [|done]. cbn. intros Hv%negb_true_iff%String.eqb_neq.
  by exists v.
Qed.

Section Init.
Context {C St : Type} {tc : TableClient C St}.

(** X12: every failure of the constructor is a [ValueError]: the fixed
    message when the endpoint or the credential is unset or empty, and the
    message of the client's own exception, prefixed, when the client cannot
    be built.  When the constructor succeeds, both values were set and
    non-empty, the service keeps them, and its client is the one built from
    them. *)
Theorem init_outcome (environ : gmap string string) :
  (∀ e, DatabaseService_init (St := St) environ = inl e → ∃ msg, e = ValueError msg)
  ∧ (missing (environ !! "SUPABASE_URL") ∨ missing (environ !! "SUPABASE_ANON_KEY") →
     DatabaseService_init (St := St) environ
     = inl (ValueError "SUPABASE_URL and SUPABASE_ANON_KEY must be set"))
  ∧ (∀ u k e, environ !! "SUPABASE_URL" = Some u → u ≠ "" →
              environ !! "SUPABASE_ANON_KEY" = Some k → k ≠ "" →
              create_client u k = inl e →
              DatabaseService_init (St := St) environ
              = inl (ValueError ("Failed to connect to Supabase: " +:+ str_exn e)))
  ∧ (∀ s, DatabaseService_init (St := St) environ = inr s →
          ∃ u k, environ !! "SUPABASE_URL" = Some u ∧ u ≠ ""
                 ∧ environ !! "SUPABASE_ANON_KEY" = Some k ∧ k ≠ ""
                 ∧ supabase_url s = Some u ∧ supabase_key s = Some k
                 ∧ create_client u k = inr (client s)).
Proof.
  unfold DatabaseService_init.
  set (U := environ !! "SUPABASE_URL"). set (K := environ !! "SUPABASE_ANON_KEY").
  split; [|split; [|split]].
  - intros e. destruct (negb _ || negb _); [intros [= <-]; by eexists|].
    destruct (create_client _ _); [intros [= <-]; by eexists|done].
  - intros [HU%missing_falsy|HK%missing_falsy].
    + by rewrite HU.
    + rewrite HK. by rewrite orb_true_r.
  - intros u k e HU Hu HK Hk Hc.
    rewrite (set_truthy U u HU Hu), (set_truthy K k HK Hk). cbn [negb orb].
    rewrite HU, HK.
    change (default "" (Some u)) with u. change (default "" (Some k)) with k.
    by rewrite Hc.
  - intros s.
    destruct (py_truthy (dump U)) eqn:HU; [|done].
    destruct (py_truthy (dump K)) eqn:HK; [|done]. cbn [negb orb].
    apply truthy_set in HU as (u & HU & Hu).
    apply truthy_set in HK as (k & HK & Hk).
    rewrite HU, HK.
    change (default "" (Some u)) with u. change (default "" (Some k)) with k.
    destruct (create_client u k) as [e|c] eqn:Hc; [done|].
    intros [= <-]. by exists u, k.
Qed.
End Init.

(** X12, concrete runs: an empty credential is reported with the fixed
    message; with both values set the reference client is built. *)
Lemma init_outcome_witness :
  DatabaseService_init (tc := mem_client)
    {[ "SUPABASE_URL" := "https://db.example"; "SUPABASE_ANON_KEY" := "" ]}
  = inl (ValueError "SUPABASE_URL and SUPABASE_ANON_KEY must be set")
  ∧ DatabaseService_init (tc := mem_client)
      {[ "SUPABASE_URL" := "https://db.example";
         "SUPABASE_ANON_KEY" := "anon-key" ]}
    = inr sample_service.
Proof.
  split.
  - destruct (init_outcome (tc := mem_client)
                {[ "SUPABASE_URL" := "https://db.example";
                   "SUPABASE_ANON_KEY" := "" ]}) as (_ & Hmissing & _).
    apply Hmissing. right. by right.
  - reflexivity.
Defined.

(** ** Ids in the reference store *)

Section Ids.
Context {clock : Clock}.
Implicit Types (self : DatabaseService (string * string)) (w : world table_state).

(** X13: the writing methods keep every id of the table below the next id
    the store hands out, provided an update does not carry an [id] key; so
    the id [create] assigns is carried by no other row, and the next id is
    never in use. *)
Theorem writes_keep_ids_below self r record_id expected_status d w :
  ids_below (remote w) →
  id_unused (remote w)
  ∧ ids_below (remote (create_one_pager_record self r w).2)
  ∧ (∀ created,
       answered (create_one_pager_record self r w).1 = Some created →
       id created = Some (next_id (remote w))
       ∧ ∀ row, row ∈ rows (remote w) →
                row !! "id" ≠ Some (JInt (next_id (remote w))))
  ∧ ids_below (remote (delete_one_pager_record self record_id w).2)
  ∧ (d !! "id" = None →
     ids_below (remote (update_one_pager_record self record_id (d, w)).2.2)
     ∧ ids_below
         (remote (update_one_pager_record_atomic self record_id expected_status
                    (d, w)).2.2)).
Proof.
  unfold ids_below, id_unused. intros Hbelow.
  assert (∀ row, row ∈ rows (remote w) →
                 row !! "id" ≠ Some (JInt (next_id (remote w)))) as Hfresh.
  { intros row Hrow Hid. rewrite Forall_forall in Hbelow.
    specialize (Hbelow row Hrow _ Hid). lia. }
  split; [by apply Forall_forall|].
  split.
  { rewrite create_mem. cbn [snd remote rows next_id].
    apply Forall_app. split.
    - eapply Forall_impl; [exact Hbelow|]. intros row Hrow i Hi.
      specialize (Hrow i Hi). lia.
    - apply Forall_singleton. intros i. rewrite lookup_insert_eq.
      intros [= <-]. lia. }
  split.
  { rewrite create_mem. cbn [fst answered]. intros created [= <-].
    split; [apply persisted_store_fields|exact Hfresh]. }
  split.
  { rewrite delete_mem. cbn [snd remote rows next_id].
    apply Forall_forall. intros row [_ Hrow]%list_elem_of_filter.
    rewrite Forall_forall in Hbelow. by apply Hbelow. }
  intros Hnone.
  assert (∀ st, Forall (λ row : gmap string json,
                          ∀ i, row !! "id" = Some (JInt i)
                               → (i < next_id (remote w))%Z)
                  ((λ row, if passes (guard record_id st) row
                           then update_payload d (isoformat (ticks w)) ∪ row
                           else row) <$> rows (remote w))) as Hboth.
  { intros st. apply Forall_fmap. eapply Forall_impl; [exact Hbelow|].
    intros row Hrow i. cbv beta.
    destruct (passes (guard record_id st) row); [|apply Hrow].
    rewrite lookup_merged_kept by done. apply Hrow. }
  split.
  - rewrite update_unfold. exact (Hboth None).
  - rewrite update_atomic_mem. exact (Hboth expected_status).
Qed.
End Ids.

(** X13, a concrete run: after the sample record was created in the empty
    table, the ids are below the next id. *)
Lemma writes_keep_ids_below_witness :
  ids_below (remote empty_world) ∧ ids_below (remote sample_world).
Proof.
  assert (ids_below (remote empty_world)) as Hempty by apply List.Forall_nil.
  split; [exact Hempty|].
  destruct (writes_keep_ids_below (clock := sample_clock) sample_service
              sample_record 1 None ∅ empty_world Hempty) as (_ & Hcreated & _).
  exact Hcreated.
Defined.

(** ** An update without a guard *)

Section Unguarded.
Context {clock : Clock}.
Implicit Types (self : DatabaseService (string * string)) (w : world table_state).

(** X14: on the reference store [update_one_pager_record] changes exactly
    the rows that have the id.  When no row has the id it answers "no
    result" and the table is as it was; when it answers a record, a row with
    that id existed. *)
Theorem update_reaches_rows_by_id self record_id d w :
  let payload := update_payload d (isoformat (ticks w)) in
  let has_id (r : gmap string json) := r !! "id" = Some (JInt record_id) in
  let out := update_one_pager_record self record_id (d, w) in
  (∃ f, rows (remote out.2.2) = f <$> rows (remote w)
        ∧ ∀ r, (has_id r → f r = payload ∪ r) ∧ (¬ has_id r → f r = r))
  ∧ next_id (remote out.2.2) = next_id (remote w)
  ∧ ((∀ r, r ∈ rows (remote w) → ¬ has_id r) →
     out.1 = inr None ∧ rows (remote out.2.2) = rows (remote w))
  ∧ (∀ x, out.1 = inr (Some x) → ∃ r, r ∈ rows (remote w) ∧ has_id r).
Proof.
  intros payload has_id out. unfold out.
  change (update_one_pager_record self record_id (d, w))
    with (update_one_pager_record_atomic self record_id None (d, w)).
  rewrite update_atomic_mem. cbv zeta. fold payload.
  cbn [fst snd remote rows next_id].
  assert (∀ r, passes (guard record_id None) r = true ↔ has_id r) as Hhit
    by (intros r; apply passes_id).
  split; [|split; [done|split]].
  - eexists. split; [reflexivity|]. intros r. cbv beta.
    destruct (passes (guard record_id None) r) eqn:Hp.
    + split; [done|]. intros Hno. destruct Hno. by apply Hhit.
    + split; [|done]. intros Hid%Hhit. congruence.
  - intros Hnone.
    assert (filter (λ r, passes (guard record_id None) r) (rows (remote w)) = [])
      as Hf.
    { apply filter_nil_not_hit. intros r Hr.
      destruct (passes (guard record_id None) r) eqn:Hp; [|done].
      destruct (Hnone r Hr). by apply Hhit. }
    rewrite Hf. split; [done|]. by apply fmap_unchanged.
  - intros x Hx.
    destruct (filter (λ r, passes (guard record_id None) r) (rows (remote w)))
      as [|r rest] eqn:Hf; [done|].
    exists r.
    assert (r ∈ filter (λ r, passes (guard record_id None) r) (rows (remote w)))
      as Hin by (rewrite Hf; apply list_elem_of_here).
    apply list_elem_of_filter in Hin as [Hp%Is_true_true Hin].
    split; [done|by apply Hhit].
Qed.
End Unguarded.

(** X14, a concrete run: no row of the sample table has id 7. *)
Lemma update_reaches_rows_by_id_witness :
  let out := update_one_pager_record (clock := sample_clock) sample_service 7
               ({[ "status" := JStr "error" ]}, sample_world) in
  out.1 = inr None ∧ rows (remote out.2.2) = rows (remote sample_world).
Proof.
  intros out.
  destruct (update_reaches_rows_by_id (clock := sample_clock) sample_service 7
              {[ "status" := JStr "error" ]} sample_world)
    as (_ & _ & Hnone & _).
  apply Hnone. change (rows (remote sample_world)) with [sample_row].
  intros r ->%list_elem_of_singleton. discriminate.
Defined.

(** X1, a concrete run: after a status update that carried a url, the
    caller's dict still holds the status and has lost the url. *)
Lemma update_mutates_caller_dict_witness :
  let d : gmap string json :=
    {[ "status" := JStr "success"; "excel_blob_url" := JStr "u" ]} in
  let left := (update_one_pager_record (clock := sample_clock) sample_service 1
                 (d, sample_world)).2.1 in
  left !! "status" = Some (JStr "success")
  ∧ dict_getitem left "excel_blob_url" = inl (KeyError "excel_blob_url").
Proof.
  intros d left.
  destruct (update_mutates_caller_dict (clock := sample_clock) sample_service 1
              None d sample_world) as (_ & Hurl & _ & _ & _ & Hother).
  split; [|exact Hurl].
  unfold left. rewrite Hother by discriminate. reflexivity.
Defined.
